(** * ArtistMusicProject: the normalisation and pagination layer

    A shallow embedding of [artist_data/utils.py],
    [artist_data/extract/genius_extract.py] and
    [artist_data/extract/spotify_extract.py].

    Python values are the JSON-like values the provider responses carry:
    strings, integers, booleans, [None], lists and dicts.  A dict is an
    ordered association list (insertion order, as in CPython); only
    hashable values (strings, integers, booleans, [None]) can be keys, and
    [True]/[False] are the keys [1]/[0], as in Python.  Exceptions are the
    error branch of a result type. *)

From Stdlib Require Import String Ascii List ZArith Bool Lia.
Import ListNotations.
Open Scope string_scope.
Open Scope Z_scope.

(** ** Python values *)

Set Warnings "-register-all".

Inductive pyval : Type :=
| VNone : pyval
| VBool : bool -> pyval
| VInt : Z -> pyval
| VStr : string -> pyval
| VList : list pyval -> pyval
| VDict : list (pyval * pyval) -> pyval.

(** Hashable values, in the canonical form [hash]/[==] use: a boolean is
    the integer 0 or 1. *)
Inductive hkey : Type :=
| HNone : hkey
| HInt : Z -> hkey
| HStr : string -> hkey.

Definition hkey_eqb (a b : hkey) : bool :=
  match a, b with
  | HNone, HNone => true
  | HInt x, HInt y => Z.eqb x y
  | HStr s, HStr t => String.eqb s t
  | _, _ => false
  end.

(** [None] for an unhashable value (a list or a dict). *)
Definition canon (v : pyval) : option hkey :=
  match v with
  | VNone => Some HNone
  | VBool b => Some (HInt (if b then 1 else 0))
  | VInt z => Some (HInt z)
  | VStr s => Some (HStr s)
  | VList _ | VDict _ => None
  end.

Definition key_eq (a b : pyval) : bool :=
  match canon a, canon b with
  | Some x, Some y => hkey_eqb x y
  | _, _ => false
  end.

Definition dict := list (pyval * pyval).

(** [d.get(k)] on the entries: the value stored under a key equal to [k]. *)
Fixpoint dict_lookup (d : dict) (k : pyval) : option pyval :=
  match d with
  | [] => None
  | (k', v) :: t => if key_eq k' k then Some v else dict_lookup t k
  end.

(** [d.get(k, dflt)]. *)
Definition dict_get (d : dict) (k dflt : pyval) : pyval :=
  match dict_lookup d k with
  | Some v => v
  | None => dflt
  end.

(** [d[k] = v]: an existing entry keeps its place (and its key object),
    a new one is appended. *)
Fixpoint dict_set (d : dict) (k v : pyval) : dict :=
  match d with
  | [] => [(k, v)]
  | (k', v') :: t => if key_eq k' k then (k', v) :: t else (k', v') :: dict_set t k v
  end.

(** [d.pop(k, None)]: the entry with key [k] is removed. *)
Definition dict_pop (d : dict) (k : pyval) : dict :=
  filter (fun kv => negb (key_eq (fst kv) k)) d.

(** [d.update(n)]: the entries of [n] are assigned in order. *)
Definition dict_update (d n : dict) : dict :=
  fold_left (fun acc kv => dict_set acc (fst kv) (snd kv)) n d.

Definition dict_values (d : dict) : list pyval := map snd d.

Definition num (v : pyval) : Z :=
  match v with
  | VBool b => if b then 1 else 0
  | VInt z => z
  | _ => 0
  end.

(** Python [==]. *)
Fixpoint py_eq (a b : pyval) : bool :=
  match a, b with
  | VNone, VNone => true
  | VStr s, VStr t => String.eqb s t
  | (VInt _ | VBool _), (VInt _ | VBool _) => Z.eqb (num a) (num b)
  | VList l1, VList l2 =>
      (fix eql (l1 l2 : list pyval) : bool :=
         match l1, l2 with
         | [], [] => true
         | x :: t1, y :: t2 => py_eq x y && eql t1 t2
         | _, _ => false
         end) l1 l2
  | VDict d1, VDict d2 =>
      Nat.eqb (length d1) (length d2) &&
      (fix all (d : dict) : bool :=
         match d with
         | [] => true
         | (k, v) :: t =>
             match dict_lookup d2 k with
             | Some v' => py_eq v v' && all t
             | None => false
             end
         end) d1
  | _, _ => false
  end.

(** Python truthiness ([bool(v)]). *)
Definition truthy (v : pyval) : bool :=
  match v with
  | VNone => false
  | VBool b => b
  | VInt z => negb (Z.eqb z 0)
  | VStr s => negb (String.eqb s "")
  | VList l => match l with [] => false | _ => true end
  | VDict d => match d with [] => false | _ => true end
  end.

(** ** Exceptions *)

Inductive exn_class : Type :=
| AttributeError
| TypeError
| KeyError
| IndexError
| ValueError
| ProviderError          (* anything a provider client library raises *)
| GeniusAPIError
| ArtistNotFoundError
| TrackDataError.

(** [issubclass(c, p)] for the classes above (all derive from [Exception]). *)
Definition is_subclass (c p : exn_class) : bool :=
  match c, p with
  | AttributeError, AttributeError | TypeError, TypeError
  | KeyError, KeyError | IndexError, IndexError
  | ValueError, ValueError | ProviderError, ProviderError
  | GeniusAPIError, GeniusAPIError
  | ArtistNotFoundError, ArtistNotFoundError
  | TrackDataError, TrackDataError => true
  | ArtistNotFoundError, GeniusAPIError
  | TrackDataError, GeniusAPIError => true
  | _, _ => false
  end.

Record exn : Type := Exn { exn_cls : exn_class; exn_msg : string }.

Inductive result (A : Type) : Type :=
| Ok : A -> result A
| Err : exn -> result A.
Arguments Ok {A} _.
Arguments Err {A} _.

Definition bind {A B} (m : result A) (k : A -> result B) : result B :=
  match m with
  | Ok a => k a
  | Err e => Err e
  end.

Notation "x <- m ;; k" := (bind m (fun x => k))
  (at level 61, m at next level, right associativity).

Definition raise {A} (c : exn_class) (msg : string) : result A := Err (Exn c msg).

(** ** Python built-ins used by the code *)

Definition type_name (v : pyval) : string :=
  match v with
  | VNone => "NoneType" | VBool _ => "bool" | VInt _ => "int"
  | VStr _ => "str" | VList _ => "list" | VDict _ => "dict"
  end.

Definition str_chars (s : string) : list pyval :=
  map (fun c => VStr (String c EmptyString)) (list_ascii_of_string s).

(** A sequence index, negative indices counting from the end. *)
Definition seq_index {A} (l : list A) (i : Z) : option A :=
  let n := Z.of_nat (length l) in
  let j := if i <? 0 then i + n else i in
  if (0 <=? j) && (j <? n) then nth_error l (Z.to_nat j) else None.

(** [o[k]]. *)
Definition subscript (o k : pyval) : result pyval :=
  match o with
  | VDict d =>
      match canon k with
      | None => raise TypeError "unhashable type"
      | Some _ =>
          match dict_lookup d k with
          | Some v => Ok v
          | None => raise KeyError "key not found"
          end
      end
  | VList l =>
      match k with
      | VInt _ | VBool _ =>
          match seq_index l (num k) with
          | Some v => Ok v
          | None => raise IndexError "list index out of range"
          end
      | _ => raise TypeError "list indices must be integers or slices"
      end
  | VStr s =>
      match k with
      | VInt _ | VBool _ =>
          match seq_index (str_chars s) (num k) with
          | Some v => Ok v
          | None => raise IndexError "string index out of range"
          end
      | _ => raise TypeError "string indices must be integers"
      end
  | _ => raise TypeError ("'" ++ type_name o ++ "' object is not subscriptable")
  end.

(** [iter(o)]: the items a [for] loop (or [list.extend]) visits. *)
Definition py_iter (o : pyval) : result (list pyval) :=
  match o with
  | VList l => Ok l
  | VDict d => Ok (map fst d)
  | VStr s => Ok (str_chars s)
  | _ => raise TypeError ("'" ++ type_name o ++ "' object is not iterable")
  end.

(** A [for] loop whose body may raise. *)
Fixpoint map_res {A B} (f : A -> result B) (l : list A) : result (list B) :=
  match l with
  | [] => Ok []
  | x :: t => y <- f x ;; ys <- map_res f t ;; Ok (y :: ys)
  end.

(** ** [artist_data/utils.py] *)

(** The sentinel of [artist_data.setup] (the docstrings of [safe_get] and
    [extract_value] give it: "Defaults to 'UNKNOWN'"). *)
Definition UNKNOWN_VALUE : pyval := VStr "UNKNOWN".

(** [safe_get(data, key, UNKNOWN_VALUE)] = [data.get(key, UNKNOWN_VALUE)]. *)
Definition safe_get (data key dflt : pyval) : result pyval :=
  match data with
  | VDict d =>
      match canon key with
      | None => raise TypeError "unhashable type"
      | Some _ => Ok (dict_get d key dflt)
      end
  | _ => raise AttributeError ("'" ++ type_name data ++ "' object has no attribute 'get'")
  end.

(** The [for key in key_path] loop of [extract_value], with its [break]. *)
Fixpoint extract_loop (value : pyval) (key_path : list pyval) (dflt : pyval)
  : result pyval :=
  match key_path with
  | [] => Ok value
  | key :: rest =>
      v <- safe_get value key dflt ;;
      if py_eq v dflt then Ok v else extract_loop v rest dflt
  end.

Definition extract_value (data : pyval) (key_path : list pyval) (dflt : pyval)
  : result pyval :=
  match extract_loop data key_path dflt with
  | Err e => if is_subclass (exn_cls e) AttributeError then Ok dflt else Err e
  | Ok value => Ok (if truthy value then value else dflt)
  end.

Definition safe_extract (data : pyval) (key_path : list pyval) (dflt : pyval)
  : result pyval :=
  extract_value data key_path dflt.

(** [flat_nested_dictionary(d, parent_key)]: [d] is updated in place and
    returned; the value below is both the new state of [d] and the
    returned object. *)
Definition flat_nested_dictionary (d parent_key : pyval) : result pyval :=
  nested_dict <- safe_get d parent_key (VDict []) ;;
  match d with
  | VDict dd =>
      let dd' := match nested_dict with
                 | VDict n => dict_update dd n
                 | _ => dd
                 end in
      Ok (VDict (dict_pop dd' parent_key))
  | _ => raise AttributeError "object has no attribute 'update'"
  end.

(** [try: m except Exception as e: h(e)]. *)
Definition try_except {A} (m : result A) (h : exn -> result A) : result A :=
  match m with
  | Ok a => Ok a
  | Err e => h e
  end.

(** A list comprehension [[f(x) for x in l if p(x)]] whose parts may raise. *)
Fixpoint filter_map_res {A B} (p : A -> result bool) (f : A -> result B) (l : list A)
  : result (list B) :=
  match l with
  | [] => Ok []
  | x :: t =>
      keep <- p x ;;
      if keep then y <- f x ;; ys <- filter_map_res p f t ;; Ok (y :: ys)
      else filter_map_res p f t
  end.

(** A dict display or comprehension [{k1: v1, k2: v2, ...}]. *)
Definition mk_dict (kvs : list (pyval * pyval)) : pyval :=
  VDict (fold_left (fun acc kv => dict_set acc (fst kv) (snd kv)) kvs []).

(** ** [artist_data/extract/genius_extract.py] *)

Module Genius.

(** The client: [search_artist(artist_name, max_songs=n, get_full_info=True)]
    returns [None] or an [Artist] object, given here by its [to_dict()];
    it may raise. *)
Record genius_client : Type := {
  search_artist : string -> Z -> result (option pyval)
}.

Definition genius_artist_search (genius_client : genius_client) (artist_name : string)
  (n_tracks : Z) : result pyval :=
  try_except
    (artist <- search_artist genius_client artist_name n_tracks ;;
     match artist with
     | None => raise ArtistNotFoundError ("Artist '" ++ artist_name ++ "' not found on Genius.")
     | Some d =>
         name <- safe_get d (VStr "name") UNKNOWN_VALUE ;;
         if negb (py_eq name (VStr artist_name))
         then raise ArtistNotFoundError ("Artist '" ++ artist_name ++ "' not found on Genius.")
         else Ok d
     end)
    (fun e => raise GeniusAPIError
                ("Error fetching artist '" ++ artist_name ++ "' from Genius API: " ++ exn_msg e)).

Definition build_genius_artist_track (genius_artist_track : pyval) : result pyval :=
  let t := genius_artist_track in
  if py_eq t (VDict []) then Ok VNone else
  try_except
    (primary_artist <- safe_extract t [VStr "primary_artist"; VStr "name"] UNKNOWN_VALUE ;;
     primary_artists <- safe_get t (VStr "primary_artists") (VList []) ;;
     track_id <- safe_get t (VStr "id") UNKNOWN_VALUE ;;
     title <- safe_get t (VStr "title") UNKNOWN_VALUE ;;
     release_date <- safe_get t (VStr "release_date") UNKNOWN_VALUE ;;
     album <- safe_get t (VStr "album") UNKNOWN_VALUE ;;
     api_path <- safe_get t (VStr "api_path") UNKNOWN_VALUE ;;
     pageviews <- safe_extract t [VStr "stats"; VStr "pageviews"] UNKNOWN_VALUE ;;
     url <- safe_get t (VStr "url") UNKNOWN_VALUE ;;
     image_url <- safe_get t (VStr "song_art_image_url") UNKNOWN_VALUE ;;
     language <- safe_get t (VStr "language") UNKNOWN_VALUE ;;
     description <- safe_extract t [VStr "description"; VStr "plain"] UNKNOWN_VALUE ;;
     lyrics <- safe_get t (VStr "lyrics") UNKNOWN_VALUE ;;
     lyrics_state <- safe_get t (VStr "lyrics_state") UNKNOWN_VALUE ;;
     artists <- py_iter primary_artists ;;
     secondary <- filter_map_res
                    (fun artist => n <- safe_get artist (VStr "name") UNKNOWN_VALUE ;;
                                   Ok (negb (py_eq n primary_artist)))
                    (fun artist => safe_get artist (VStr "name") UNKNOWN_VALUE)
                    artists ;;
     featured <- safe_get t (VStr "featured_artists") (VList []) ;;
     Ok (mk_dict
           [(VStr "genius_track_id", track_id);
            (VStr "genius_title", title);
            (VStr "genius_release_date", release_date);
            (VStr "genius_album", album);
            (VStr "genius_track_api_path", api_path);
            (VStr "genius_pageviews", pageviews);
            (VStr "genius_track_url", url);
            (VStr "genius_track_image_url", image_url);
            (VStr "genius_track_language", language);
            (VStr "genius_track_description", description);
            (VStr "genius_lyrics", lyrics);
            (VStr "genius_lyrics_is_complete", lyrics_state);
            (VStr "primary_artist", primary_artist);
            (VStr "primary_artists", VList secondary);
            (VStr "genius_featured_artists", featured)]))
    (fun e => raise TrackDataError
                ("Error occurred while building track data: " ++ exn_msg e)).

Definition build_genius_artist_data (genius_artist_search_result : pyval) : result pyval :=
  let r := genius_artist_search_result in
  try_except
    (artist_id <- safe_get r (VStr "id") UNKNOWN_VALUE ;;
     name <- safe_get r (VStr "name") UNKNOWN_VALUE ;;
     alternate_names <- safe_get r (VStr "alternate_names") (VList []) ;;
     api_path <- safe_get r (VStr "api_path") UNKNOWN_VALUE ;;
     url <- safe_get r (VStr "url") UNKNOWN_VALUE ;;
     image_url <- safe_get r (VStr "image_url") UNKNOWN_VALUE ;;
     description <- safe_extract r [VStr "description"; VStr "plain"] UNKNOWN_VALUE ;;
     twitter <- safe_get r (VStr "twitter_name") UNKNOWN_VALUE ;;
     facebook <- safe_get r (VStr "facebook_name") UNKNOWN_VALUE ;;
     instagram <- safe_get r (VStr "instagram_name") UNKNOWN_VALUE ;;
     verified <- safe_get r (VStr "is_verified") UNKNOWN_VALUE ;;
     songs <- safe_get r (VStr "songs") (VDict []) ;;
     items <- py_iter songs ;;
     tracks <- map_res build_genius_artist_track items ;;
     Ok (mk_dict
           [(VStr "genius_artist_id", artist_id);
            (VStr "genius_artist_name", name);
            (VStr "genius_alternate_names", alternate_names);
            (VStr "genius_artist_api_path", api_path);
            (VStr "genius_artist_url", url);
            (VStr "genius_artist_image_url", image_url);
            (VStr "genius_artist_description", description);
            (VStr "genius_twitter_name", twitter);
            (VStr "genius_facebook_name", facebook);
            (VStr "genius_instagram_name", instagram);
            (VStr "genius_is_verified", verified);
            (VStr "genius_tracks", VList tracks)]))
    (fun e => raise TrackDataError
                ("Error occurred while building artist data: " ++ exn_msg e)).

(** The [except (GeniusAPIError, ArtistNotFoundError, TrackDataError)] test. *)
Definition is_known_genius_error (e : exn) : bool :=
  is_subclass (exn_cls e) GeniusAPIError
  || is_subclass (exn_cls e) ArtistNotFoundError
  || is_subclass (exn_cls e) TrackDataError.

Definition fetch_genius_artist_data (genius_client : genius_client) (artist_name : string)
  (n_tracks : Z) : result pyval :=
  try_except
    (genius_artist <- genius_artist_search genius_client artist_name n_tracks ;;
     genius_artist_data <- build_genius_artist_data genius_artist ;;
     items <- match genius_artist_data with
              | VDict d => Ok d
              | _ => raise AttributeError "object has no attribute 'items'"
              end ;;
     tracks <- safe_get genius_artist_data (VStr "genius_tracks") (VDict []) ;;
     Ok (mk_dict
           [(VStr "artist_data",
             mk_dict (filter (fun kv => negb (py_eq (fst kv) (VStr "genius_tracks"))) items));
            (VStr "artist_tracks", tracks)]))
    (fun e => if is_known_genius_error e then Err e
              else raise GeniusAPIError ("Unexpected error: " ++ exn_msg e)).

End Genius.

(** ** [artist_data/extract/spotify_extract.py] *)

Module Spotify.

(** The client.  A paged endpoint ([artist_albums], [album_tracks]) is
    given by its first page and the pages that successive
    [spotify_client.next(results)] calls return; once those are used up,
    [next] returns [None].  Any call may raise. *)
Record spotify_client : Type := {
  search : string -> result pyval;
  artist_related_artists : pyval -> result pyval;
  artist_albums : pyval -> result (pyval * list pyval);
  album_tracks : pyval -> result (pyval * list pyval);
  audio_features : pyval -> result pyval
}.

Definition spotify_artist_search (spotify_client : spotify_client) (artist_name : string)
  : result pyval :=
  response <- search spotify_client artist_name ;;
  spotify_artist_search_result <- safe_extract response [VStr "artists"; VStr "items"] VNone ;;
  if truthy spotify_artist_search_result
  then subscript spotify_artist_search_result (VInt 0)
  else raise ValueError ("No artist found with the name '" ++ artist_name ++ "'").

Definition build_spotify_artist_data (spotify_client : spotify_client)
  (spotify_artist_search_result : pyval) : result pyval :=
  let r := spotify_artist_search_result in
  artist_id <- safe_get r (VStr "id") UNKNOWN_VALUE ;;
  name <- safe_get r (VStr "name") UNKNOWN_VALUE ;;
  uri <- safe_get r (VStr "uri") UNKNOWN_VALUE ;;
  href <- safe_get r (VStr "href") UNKNOWN_VALUE ;;
  images <- safe_get r (VStr "images") UNKNOWN_VALUE ;;
  image0 <- subscript images (VInt 0) ;;
  image_url <- safe_get image0 (VStr "url") UNKNOWN_VALUE ;;
  n_followers <- safe_extract r [VStr "followers"; VStr "total"] UNKNOWN_VALUE ;;
  popularity <- safe_get r (VStr "popularity") UNKNOWN_VALUE ;;
  genres <- safe_get r (VStr "genres") UNKNOWN_VALUE ;;
  artist_id' <- safe_get r (VStr "id") UNKNOWN_VALUE ;;
  related <- artist_related_artists spotify_client artist_id' ;;
  related_list <- safe_get related (VStr "artists") UNKNOWN_VALUE ;;
  related_items <- py_iter related_list ;;
  related_names <- map_res (fun artist_related => safe_get artist_related (VStr "name") UNKNOWN_VALUE)
                     related_items ;;
  Ok (mk_dict
        [(VStr "spotify_artist_id", artist_id);
         (VStr "spotify_artist_name", name);
         (VStr "spotify_artist_uri_path", uri);
         (VStr "spotify_artist_url", href);
         (VStr "spotify_artist_image_url", image_url);
         (VStr "spotify_artist_n_followers", n_followers);
         (VStr "spotify_popularity", popularity);
         (VStr "spotify_artist_genres", genres);
         (VStr "spotify_related_artists", VList related_names)]).

(** The [while results:] loop shared by [get_artist_albums] and
    [get_album_tracks]: [results] is the current page, [rest] the pages
    [next] still has to return. *)
Fixpoint paginate (results : pyval) (rest : list pyval) : result (list pyval) :=
  if truthy results then
    page_items <- subscript results (VStr "items") ;;
    items <- py_iter page_items ;;
    nxt <- subscript results (VStr "next") ;;
    if truthy nxt then
      match rest with
      | [] => Ok items
      | results' :: rest' => more <- paginate results' rest' ;; Ok (items ++ more)%list
      end
    else Ok items
  else Ok [].

(** [{album['id']: album for album in albums}]. *)
Fixpoint dedup_by_id (acc : dict) (albums : list pyval) : result dict :=
  match albums with
  | [] => Ok acc
  | album :: t =>
      k <- subscript album (VStr "id") ;;
      match canon k with
      | None => raise TypeError "unhashable type"
      | Some _ => dedup_by_id (dict_set acc k album) t
      end
  end.

Definition get_artist_albums (spotify_client : spotify_client) (artist_id : pyval)
  : result (list pyval) :=
  first_and_next <- artist_albums spotify_client artist_id ;;
  albums <- paginate (fst first_and_next) (snd first_and_next) ;;
  unique_albums <- dedup_by_id [] albums ;;
  Ok (dict_values unique_albums).

Definition get_album_tracks (spotify_client : spotify_client) (album_id : pyval)
  : result (list pyval) :=
  first_and_next <- album_tracks spotify_client album_id ;;
  paginate (fst first_and_next) (snd first_and_next).

(** [{**track, 'spotify_album_id': album_id}]. *)
Definition with_album_id (album_id track : pyval) : result pyval :=
  match track with
  | VDict d => Ok (mk_dict (d ++ [(VStr "spotify_album_id", album_id)])%list)
  | _ => raise TypeError ("'" ++ type_name track ++ "' object is not a mapping")
  end.

Definition get_all_tracks_of_artist (spotify_client : spotify_client) (artist_id : pyval)
  : result (list pyval) :=
  albums <- get_artist_albums spotify_client artist_id ;;
  per_album <- map_res
                 (fun album =>
                    album_id <- safe_get album (VStr "id") UNKNOWN_VALUE ;;
                    tracks <- get_album_tracks spotify_client album_id ;;
                    map_res (with_album_id album_id) tracks)
                 albums ;;
  Ok (concat per_album).

Definition build_spotify_track (spotify_client : spotify_client) (spotify_artist_id track : pyval)
  : result pyval :=
  track_id <- safe_get track (VStr "id") UNKNOWN_VALUE ;;
  name <- safe_get track (VStr "name") UNKNOWN_VALUE ;;
  uri <- safe_get track (VStr "uri") UNKNOWN_VALUE ;;
  href <- safe_get track (VStr "href") UNKNOWN_VALUE ;;
  track_number <- safe_get track (VStr "track_number") UNKNOWN_VALUE ;;
  album_id <- safe_get track (VStr "spotify_album_id") UNKNOWN_VALUE ;;
  id_for_test <- safe_get track (VStr "id") UNKNOWN_VALUE ;;
  features <- (if negb (py_eq id_for_test UNKNOWN_VALUE)
               then id_for_call <- safe_get track (VStr "id") UNKNOWN_VALUE ;;
                    response <- audio_features spotify_client id_for_call ;;
                    subscript response (VInt 0)
               else Ok (VDict [])) ;;
  Ok (mk_dict
        [(VStr "spotify_artist_id", spotify_artist_id);
         (VStr "spotify_track_id", track_id);
         (VStr "spotify_track_name", name);
         (VStr "spotify_track_uri", uri);
         (VStr "spotify_track_url", href);
         (VStr "track_number", track_number);
         (VStr "spotify_album_id", album_id);
         (VStr "track_audio_features_spotify", features)]).

Definition build_spotify_artist_tracks (spotify_client : spotify_client)
  (spotify_artist_id : pyval) : result (list pyval) :=
  tracks <- get_all_tracks_of_artist spotify_client spotify_artist_id ;;
  spotify_artist_tracks <- map_res (build_spotify_track spotify_client spotify_artist_id) tracks ;;
  map_res (fun track => flat_nested_dictionary track (VStr "track_audio_features_spotify"))
    spotify_artist_tracks.

Definition fetch_spotify_artist_data (spotify_client : spotify_client) (artist_name : string)
  : result pyval :=
  spotify_artist_search_result <- spotify_artist_search spotify_client artist_name ;;
  spotify_artist_data <- build_spotify_artist_data spotify_client spotify_artist_search_result ;;
  artist_id <- subscript spotify_artist_data (VStr "spotify_artist_id") ;;
  spotify_artist_tracks <- build_spotify_artist_tracks spotify_client artist_id ;;
  Ok (mk_dict
        [(VStr "artist_data", spotify_artist_data);
         (VStr "artist_tracks", VList spotify_artist_tracks)]).

End Spotify.

(** ** Notions the properties are stated with *)

(** The value a key path leads to when every key is present, each step
    looking the key up in a dict. *)
Fixpoint lookup_path (v : pyval) (key_path : list pyval) : option pyval :=
  match key_path with
  | [] => Some v
  | k :: rest =>
      match v with
      | VDict d => match dict_lookup d k with
                   | Some v' => lookup_path v' rest
                   | None => None
                   end
      | _ => None
      end
  end.

Definition hashable (k : pyval) : bool :=
  match canon k with Some _ => true | None => false end.

(** Python dicts never hold two equal keys. *)
Fixpoint dict_wf (d : dict) : bool :=
  match d with
  | [] => true
  | (k, _) :: t => negb (existsb (fun kv => key_eq (fst kv) k) t) && dict_wf t
  end.

(** [o] is the hashable key [h]. *)
Definition is_key (o : option hkey) (h : hkey) : bool :=
  match o with
  | Some x => hkey_eqb x h
  | None => false
  end.

(** The entry stored under the hashable key [h]. *)
Fixpoint hlookup (d : dict) (h : hkey) : option pyval :=
  match d with
  | [] => None
  | (k, v) :: t => if is_key (canon k) h then Some v else hlookup t h
  end.

(** The identifier of an item ([item['id']]), when it has a hashable one. *)
Definition id_key (item : pyval) : option hkey :=
  match subscript item (VStr "id") with
  | Ok k => canon k
  | Err _ => None
  end.

(** The last item of [items] whose identifier is [h]. *)
Fixpoint last_with_id (h : hkey) (items : list pyval) : option pyval :=
  match items with
  | [] => None
  | x :: t =>
      match last_with_id h t with
      | Some y => Some y
      | None => if is_key (id_key x) h then Some x else None
      end
  end.

(** ** Sample responses *)

(** A collection item [{'id': i, 'page': p}]. *)
Definition sample_item (i p : Z) : pyval := mk_dict [(VStr "id", VInt i); (VStr "page", VInt p)].

(** A collection page: its items and a [next] marker. *)
Definition sample_page (p : Z) (ids : list Z) (has_next : bool) : pyval :=
  mk_dict [(VStr "items", VList (map (fun i => sample_item i p) ids));
           (VStr "next", if has_next then VStr "https://api.spotify.com/next" else VNone)].

(** Three pages of two items; identifier 1 is on page 1 and on page 3. *)
Definition sample_pages : pyval * list pyval :=
  (sample_page 1 [1; 2] true, [sample_page 2 [3; 4] true; sample_page 3 [1; 5] false]).

(** The items the three pages accumulate, in page order. *)
Definition sample_accumulated : list pyval :=
  [sample_item 1 1; sample_item 2 1; sample_item 3 2; sample_item 4 2;
   sample_item 1 3; sample_item 5 3].

(** One item per identifier, the page-3 one for identifier 1. *)
Definition sample_deduplicated : list pyval :=
  [sample_item 1 3; sample_item 2 1; sample_item 3 2; sample_item 4 2; sample_item 5 3].

Definition sample_spotify_client : Spotify.spotify_client := {|
  Spotify.search := fun _ => raise ProviderError "http status: 500";
  Spotify.artist_related_artists := fun _ => Ok (mk_dict [(VStr "artists", VList [])]);
  Spotify.artist_albums := fun _ => Ok sample_pages;
  Spotify.album_tracks := fun _ => Ok sample_pages;
  Spotify.audio_features := fun _ => Ok (VList [mk_dict [(VStr "tempo", VInt 120)]])
|}.

(** The [name] of a listed primary artist, as [safe_get(artist, 'name')]
    reads it from a mapping. *)
Definition name_of (artist : pyval) : pyval :=
  match artist with
  | VDict a => dict_get a (VStr "name") UNKNOWN_VALUE
  | _ => VNone
  end.

Definition is_dict (v : pyval) : bool :=
  match v with VDict _ => true | _ => false end.

(** The end-to-end scenario's song. *)
Definition sample_song : pyval :=
  mk_dict [(VStr "id", VInt 10); (VStr "title", VStr "A");
           (VStr "primary_artist", mk_dict [(VStr "name", VStr "Test")]);
           (VStr "primary_artists", VList [mk_dict [(VStr "name", VStr "Test")];
                                         mk_dict [(VStr "name", VStr "Feat")]])].

(** A Genius client whose search returns an artist named [found], with the
    given songs. *)
Definition sample_genius_client (found : string) (songs : list pyval) : Genius.genius_client := {|
  Genius.search_artist := fun _ _ =>
    Ok (Some (mk_dict [(VStr "id", VInt 1); (VStr "name", VStr found); (VStr "songs", VList songs)]))
|}.

(** ** Field tables of the record builders

    Each entry pairs a key of the raw response with the record key the
    builder stores it under; a path entry gives the key path read with
    [safe_extract]. *)















(** ** [artist_data/utils.py] ([suppress_stdout]) and [artist_data/client/*.py]

    The client setup code reads the environment, builds the library
    clients, makes a probe call and prints; [sys.stdout] is the state it
    changes.  Library calls keep the exceptions of [exn_class]; the setup
    code adds its own classes. *)

Module Setup.

(** Where [sys.stdout] points: [os.devnull] or some other stream. *)
Inductive handle : Type :=
| Devnull : handle
| Stream : nat -> handle.

(** [sys.stdout] and the lines written so far, with the stream each went to. *)
Record io : Type := IO { stdout : handle; written : list (handle * string) }.

Inductive setup_class : Type :=
| Lib (c : exn_class)        (* raised by a library call *)
| GeniusClientError
| InvalidTokenError
| GeniusConnectionError
| SpotifyClientError
| InvalidCredentialsError
| SpotifyConnectionError.

Definition setup_subclass (c p : setup_class) : bool :=
  match c, p with
  | Lib a, Lib b => is_subclass a b
  | GeniusClientError, GeniusClientError
  | InvalidTokenError, (InvalidTokenError | GeniusClientError)
  | GeniusConnectionError, (GeniusConnectionError | GeniusClientError)
  | SpotifyClientError, SpotifyClientError
  | InvalidCredentialsError, (InvalidCredentialsError | SpotifyClientError)
  | SpotifyConnectionError, (SpotifyConnectionError | SpotifyClientError) => true
  | _, _ => false
  end.

Record sexn : Type := SExn { sx_cls : setup_class; sx_msg : string }.

Inductive outcome (A : Type) : Type :=
| Done : A -> outcome A
| Raised : sexn -> outcome A.
Arguments Done {A} _.
Arguments Raised {A} _.

(** Statements that may raise and change [sys.stdout] or write to it. *)
Definition M (A : Type) : Type := io -> outcome A * io.

Definition ret {A} (a : A) : M A := fun s => (Done a, s).

Definition mbind {A B} (m : M A) (k : A -> M B) : M B :=
  fun s => match m s with
           | (Done a, s') => k a s'
           | (Raised e, s') => (Raised e, s')
           end.

Notation "x <-- m ;;; k" := (mbind m (fun x => k))
  (at level 61, m at next level, right associativity).

Definition mraise {A} (c : setup_class) (msg : string) : M A :=
  fun s => (Raised (SExn c msg), s).

(** [raise e] on a caught exception. *)
Definition reraise {A} (e : sexn) : M A := fun s => (Raised e, s).

(** [try: m except Exception as e: h(e)]. *)
Definition mtry {A} (m : M A) (h : sexn -> M A) : M A :=
  fun s => match m s with
           | (Raised e, s') => h e s'
           | r => r
           end.

(** [try: m finally: fin]. *)
Definition mfinally {A} (m : M A) (fin : M unit) : M A :=
  fun s => let (o, s1) := m s in
           let (o2, s2) := fin s1 in
           (match o2 with Raised e => Raised e | Done _ => o end, s2).

Definition lift {A} (r : result A) : M A :=
  fun s => (match r with
            | Ok a => Done a
            | Err e => Raised (SExn (Lib (exn_cls e)) (exn_msg e))
            end, s).

(** [print(line)]: the line goes to the current [sys.stdout]. *)
Definition print (line : string) : M unit :=
  fun s => (Done tt, IO (stdout s) (written s ++ [(stdout s, line)])).

Definition get_stdout : M handle := fun s => (Done (stdout s), s).

Definition set_stdout (h : handle) : M unit := fun s => (Done tt, IO h (written s)).

(** A library call that prints [fst call] to [sys.stdout], then returns or
    raises as [snd call] says. *)
Definition lib_call {A} (call : list string * result A) : M A :=
  fold_right (fun line m => mbind (print line) (fun _ => m)) (lift (snd call)) (fst call).

(** [with suppress_stdout(): body].  Opening [os.devnull] for writing is
    taken not to fail. *)
Definition suppress_stdout {A} (body : M A) : M A :=
  old_stdout <-- get_stdout ;;;
  mbind (set_stdout Devnull) (fun _ =>
  mfinally body (set_stdout old_stdout)).

(** The value of [os.getenv(name)] when it is truthy ([not v] is false). *)
Definition env_truthy (v : option string) : option string :=
  match v with
  | Some s => if String.eqb s "" then None else Some s
  | None => None
  end.

Definition genius_token_missing : string :=
  "Genius API token is missing or invalid. Please set the GENIUS_API_TOKEN environment variable.".

(** [create_genius_client()], given [os.getenv], the constructor
    [lyricsgenius.Genius(api_token, timeout=10, sleep_time=0.5, retries=5)]
    and the probe [genius.search_artist("ABCDEFGHIJKLMNOPKRSTUVWXYZ",
    max_songs=1, include_features=True)]. *)
Definition create_genius_client {G : Type} (getenv : string -> option string)
  (lyricsgenius_Genius : string -> result G)
  (search_artist : G -> list string * result pyval) : M G :=
  mtry
    (match env_truthy (getenv "GENIUS_API_TOKEN") with
     | None => mraise InvalidTokenError genius_token_missing
     | Some api_token =>
         genius <-- lift (lyricsgenius_Genius api_token) ;;;
         probe <-- mtry
                     (artist <-- suppress_stdout (lib_call (search_artist genius)) ;;;
                      print "INFO: Connection Successful!")
                     (fun e => mraise GeniusConnectionError
                                 ("Failed to connect to Genius API: " ++ sx_msg e)) ;;;
         ret genius
     end)
    (fun e =>
       if setup_subclass (sx_cls e) InvalidTokenError then reraise e
       else if setup_subclass (sx_cls e) GeniusConnectionError then reraise e
       else mraise GeniusClientError
              ("An unexpected error occurred in the Genius client setup: " ++ sx_msg e)).

Definition spotify_credentials_missing : string :=
  "Spotify client credentials are missing or invalid. Please set the CLIENT_ID_SPOTIFY and CLIENT_SECRET_SPOTIFY environment variables.".

(** [create_spotify_client()], given [os.getenv], the constructors
    [SpotifyClientCredentials(client_id=..., client_secret=...)] and
    [spotipy.Spotify(client_credentials_manager=...)], and the probe
    [spotify.search("ABCDEFGHIJKLMNOPKRSTUVWXYZ", type='artist', limit=1)]. *)
Definition create_spotify_client {C S : Type} (getenv : string -> option string)
  (SpotifyClientCredentials : string -> string -> result C)
  (spotipy_Spotify : C -> result S)
  (search : S -> result pyval) : M S :=
  mtry
    (match env_truthy (getenv "CLIENT_ID_SPOTIFY"), env_truthy (getenv "CLIENT_SECRET_SPOTIFY") with
     | Some client_id, Some client_secret =>
         client_credentials_manager <-- lift (SpotifyClientCredentials client_id client_secret) ;;;
         spotify <-- lift (spotipy_Spotify client_credentials_manager) ;;;
         probe <-- mtry
                     (response <-- lift (search spotify) ;;;
                      print "INFO: Spotify Connection Successful!")
                     (fun e => mraise SpotifyConnectionError
                                 ("Failed to connect to Spotify API: " ++ sx_msg e)) ;;;
         ret spotify
     | _, _ => mraise InvalidCredentialsError spotify_credentials_missing
     end)
    (fun e =>
       if setup_subclass (sx_cls e) InvalidCredentialsError then reraise e
       else if setup_subclass (sx_cls e) SpotifyConnectionError then reraise e
       else mraise SpotifyClientError
              ("An unexpected error occurred in the Spotify client setup: " ++ sx_msg e)).

End Setup.

(** A Spotify client whose search returns [response]; the other endpoints
    are those of [sample_spotify_client]. *)
Definition spotify_client_with_search (response : pyval) : Spotify.spotify_client := {|
  Spotify.search := fun _ => Ok response;
  Spotify.artist_related_artists := Spotify.artist_related_artists sample_spotify_client;
  Spotify.artist_albums := Spotify.artist_albums sample_spotify_client;
  Spotify.album_tracks := Spotify.album_tracks sample_spotify_client;
  Spotify.audio_features := Spotify.audio_features sample_spotify_client
|}.

(** ** Lemmas on the value model *)

Lemma hkey_eqb_spec (a b : hkey) : hkey_eqb a b = true <-> a = b.
Proof.
  destruct a, b; simpl; split; intro H; try discriminate; try reflexivity.
  - apply Z.eqb_eq in H; subst; reflexivity.
  - injection H as ->; apply Z.eqb_refl.
  - apply String.eqb_eq in H; subst; reflexivity.
  - injection H as ->; apply String.eqb_refl.
Qed.

Lemma hkey_eqb_refl (a : hkey) : hkey_eqb a a = true.
Proof. apply hkey_eqb_spec; reflexivity. Qed.

Lemma key_eq_spec (a b : pyval) :
  key_eq a b = true <-> exists h, canon a = Some h /\ canon b = Some h.
Proof.
  unfold key_eq; destruct (canon a) as [x|], (canon b) as [y|]; split;
    intro H; try discriminate.
  - apply hkey_eqb_spec in H; subst; eauto.
  - destruct H as [h [H1 H2]]; injection H1 as ->; injection H2 as ->;
      apply hkey_eqb_refl.
  - destruct H as [h [_ H]]; discriminate.
  - destruct H as [h [H _]]; discriminate.
  - destruct H as [h [H _]]; discriminate.
Qed.

Lemma is_key_spec (o : option hkey) (h : hkey) :
  is_key o h = true <-> o = Some h.
Proof.
  destruct o as [x|]; simpl; split; intro H; try discriminate.
  - apply hkey_eqb_spec in H; subst; reflexivity.
  - injection H as ->; apply hkey_eqb_refl.
Qed.

Lemma py_eq_str (v : pyval) (s : string) : py_eq v (VStr s) = true -> v = VStr s.
Proof.
  destruct v; simpl; intro H; try discriminate.
  apply String.eqb_eq in H; subst; reflexivity.
Qed.

Lemma py_eq_str_refl (s : string) : py_eq (VStr s) (VStr s) = true.
Proof. simpl; apply String.eqb_refl. Qed.

Lemma safe_get_dict (d : dict) (k dflt : pyval) :
  hashable k = true -> safe_get (VDict d) k dflt = Ok (dict_get d k dflt).
Proof. unfold hashable, safe_get; destruct (canon k); congruence. Qed.

(** One step of the [extract_value] loop on a dict. *)
Lemma extract_value_cons (d : dict) (k : pyval) (rest : list pyval) (dflt : pyval) :
  hashable k = true ->
  extract_value (VDict d) (k :: rest) dflt =
  let v := dict_get d k dflt in
  if py_eq v dflt then Ok (if truthy v then v else dflt)
  else extract_value v rest dflt.
Proof.
  intro Hk; unfold extract_value.
  change (extract_loop (VDict d) (k :: rest) dflt) with
    (v <- safe_get (VDict d) k dflt ;;
     if py_eq v dflt then Ok v else extract_loop v rest dflt).
  rewrite (safe_get_dict d k dflt Hk); simpl.
  destruct (py_eq (dict_get d k dflt) dflt); reflexivity.
Qed.

(** A falsy value reached before the end of a path stops the traversal at
    the default. *)
Lemma extract_value_from_falsy (m : pyval) (p : list string) (s : string) :
  truthy m = false -> extract_value m (map VStr p) (VStr s) = Ok (VStr s).
Proof.
  intro Hf.
  destruct p as [|k p].
  - unfold extract_value; simpl; rewrite Hf; reflexivity.
  - destruct m; try (unfold extract_value; reflexivity).
    destruct l as [|kv l]; [|discriminate].
    simpl map; rewrite extract_value_cons by reflexivity.
    cbn -[py_eq truthy]; rewrite py_eq_str_refl.
    destruct (truthy (VStr s)); reflexivity.
Qed.

(** On a value that is not a dict, the first lookup raises
    [AttributeError], which [extract_value] turns into the default. *)
Lemma extract_value_not_dict (data k : pyval) (rest : list pyval) (dflt : pyval) :
  (forall d, data <> VDict d) -> extract_value data (k :: rest) dflt = Ok dflt.
Proof.
  intro Hnd; destruct data; try reflexivity.
  exfalso; apply (Hnd l); reflexivity.
Qed.

Lemma extract_value_total (data : pyval) (key_path : list pyval) (dflt : pyval) :
  forallb hashable key_path = true -> exists r, extract_value data key_path dflt = Ok r.
Proof.
  revert data; induction key_path as [|k rest IH]; intros data Hp.
  - eexists; reflexivity.
  - simpl in Hp; apply andb_prop in Hp as [Hk Hrest].
    destruct data as [| | | | |d];
      try (exists dflt; apply extract_value_not_dict; discriminate).
    rewrite (extract_value_cons d k rest dflt Hk); cbv zeta.
    destruct (py_eq (dict_get d k dflt) dflt).
    + eexists; reflexivity.
    + apply IH; exact Hrest.
Qed.

Lemma extract_value_str_default (data : pyval) (key_path : list pyval) (s : string) :
  forallb hashable key_path = true ->
  exists r, extract_value data key_path (VStr s) = Ok r /\
            (r = VStr s \/ (lookup_path data key_path = Some r /\ truthy r = true)).
Proof.
  revert data; induction key_path as [|k rest IH]; intros data Hp.
  - unfold extract_value; simpl.
    destruct (truthy data) eqn:Ht; eexists; split; try reflexivity; auto.
  - simpl in Hp; apply andb_prop in Hp as [Hk Hrest].
    destruct data as [| | | | |d];
      try (exists (VStr s); split; [apply extract_value_not_dict; discriminate | left; reflexivity]).
    rewrite (extract_value_cons d k rest (VStr s) Hk); cbv zeta.
    destruct (py_eq (dict_get d k (VStr s)) (VStr s)) eqn:He.
    + apply py_eq_str in He; rewrite He.
      exists (VStr s); split; [destruct (truthy (VStr s)); reflexivity | left; reflexivity].
    + destruct (IH (dict_get d k (VStr s)) Hrest) as [r [Hr Hc]].
      exists r; split; [exact Hr|].
      destruct Hc as [Hc|Hc]; [left; exact Hc|right].
      unfold dict_get in *; simpl.
      destruct (dict_lookup d k); [exact Hc|].
      rewrite py_eq_str_refl in He; discriminate.
Qed.

(** ** C1: the falsy-equals-unknown quirk *)

(** C1. Whenever the traversal of a key path (of [str] keys, as
    [safe_get] types them) reaches a falsy value, at the end of the path
    or at any earlier step, [extract_value] and [safe_extract] return the
    sentinel, for every string sentinel. *)
Theorem extract_value_falsy_gives_sentinel (s : string) (m : pyval) (p1 p2 : list string)
  (v : pyval) :
  lookup_path m (map VStr p1) = Some v -> truthy v = false ->
  extract_value m (map VStr (p1 ++ p2)) (VStr s) = Ok (VStr s) /\
  safe_extract m (map VStr (p1 ++ p2)) (VStr s) = Ok (VStr s).
Proof.
  intros Hp Hf.
  enough (E : extract_value m (map VStr (p1 ++ p2)) (VStr s) = Ok (VStr s))
    by (split; [exact E | exact E]).
  revert m Hp; induction p1 as [|k p1 IH]; intros m Hp.
  - simpl in Hp; injection Hp as <-; apply extract_value_from_falsy; exact Hf.
  - destruct m as [| | | | |d]; try discriminate.
    simpl in Hp; destruct (dict_lookup d (VStr k)) as [m'|] eqn:Hl; [|discriminate].
    simpl map; rewrite extract_value_cons by reflexivity; cbv zeta.
    unfold dict_get; rewrite Hl.
    destruct (py_eq m' (VStr s)) eqn:He.
    + apply py_eq_str in He; subst m'; destruct (truthy (VStr s)); reflexivity.
    + apply IH; exact Hp.
Qed.

Lemma extract_value_falsy_gives_sentinel_witness :
  lookup_path (mk_dict [(VStr "a", mk_dict [(VStr "b", VInt 0)])]) (map VStr ["a"; "b"]) = Some (VInt 0)
  /\ truthy (VInt 0) = false
  /\ (extract_value (mk_dict [(VStr "a", mk_dict [(VStr "b", VInt 0)])])
        (map VStr (["a"; "b"] ++ ["c"])) (VStr "UNKNOWN") = Ok (VStr "UNKNOWN")
      /\ safe_extract (mk_dict [(VStr "a", mk_dict [(VStr "b", VInt 0)])])
           (map VStr (["a"; "b"] ++ ["c"])) (VStr "UNKNOWN") = Ok (VStr "UNKNOWN")).
Proof.
  split; [reflexivity|]; split; [reflexivity|].
  apply (extract_value_falsy_gives_sentinel "UNKNOWN"
           (mk_dict [(VStr "a", mk_dict [(VStr "b", VInt 0)])]) ["a"; "b"] ["c"] (VInt 0));
    reflexivity.
Defined.

Lemma py_eq_none (v : pyval) : py_eq v VNone = true -> v = VNone.
Proof. destruct v; simpl; congruence. Qed.

(** [extract_value] gives the default or the truthy value the whole path
    leads to, for a default that only equals itself and is not a dict. *)
Lemma extract_value_shape (data : pyval) (key_path : list pyval) (dflt r : pyval) :
  (forall v, py_eq v dflt = true -> v = dflt) -> py_eq dflt dflt = true ->
  extract_value data key_path dflt = Ok r ->
  r = dflt \/ (lookup_path data key_path = Some r /\ truthy r = true).
Proof.
  intros Hd Hrefl; revert data; induction key_path as [|k rest IH]; intros data H.
  - unfold extract_value in H; simpl in H; injection H as <-.
    destruct (truthy data) eqn:T; [right; split; [reflexivity|exact T]|left; reflexivity].
  - destruct data as [| | | | |d];
      try (rewrite extract_value_not_dict in H by discriminate; injection H as <-;
           left; reflexivity).
    destruct (canon k) as [hk|] eqn:Hk.
    + rewrite extract_value_cons in H by (unfold hashable; rewrite Hk; reflexivity).
      cbv zeta in H.
      destruct (py_eq (dict_get d k dflt) dflt) eqn:He.
      * apply Hd in He; rewrite He in H; injection H as <-.
        destruct (truthy dflt); left; reflexivity.
      * simpl lookup_path; unfold dict_get in He, H.
        destruct (dict_lookup d k) as [v|]; [apply IH; exact H|].
        rewrite Hrefl in He; discriminate.
    + unfold extract_value in H; simpl in H; rewrite Hk in H; discriminate.
Qed.

(** ** C8: the accessors and unhashable keys *)

(** C8 (counterexample). A key that is a list is unhashable: [dict.get]
    raises [TypeError], which neither [safe_get] nor [extract_value]
    (it catches only [AttributeError]) turns into the default. *)
Lemma accessors_raise_on_unhashable_key :
  safe_get (mk_dict [(VStr "a", VInt 1)]) (VList []) UNKNOWN_VALUE
    = Err (Exn TypeError "unhashable type")
  /\ extract_value (mk_dict [(VStr "a", VInt 1)]) [VList []] UNKNOWN_VALUE
    = Err (Exn TypeError "unhashable type").
Proof. split; reflexivity. Qed.

(** C8 (amended). For hashable keys (strings, integers, booleans, [None]):
    [safe_get] on a mapping returns the stored value or the default, and
    [extract_value] never raises, whatever the intermediate values are.
    When the default equals only itself (a string sentinel, [None]), the
    result is the default or the truthy value the whole path leads to.
    Another default can stop the walk early on a value equal to it:
    [extract_value({'a': True}, ['a', 'b'], 1)] is [True]. *)
Theorem accessors_never_raise_on_hashable_keys (data : pyval) (key_path : list pyval)
  (dflt : pyval) :
  forallb hashable key_path = true ->
  (forall d k, data = VDict d -> In k key_path ->
               safe_get data k dflt = Ok (dict_get d k dflt))
  /\ (exists r, extract_value data key_path dflt = Ok r
               /\ ((forall v, py_eq v dflt = true -> v = dflt) -> py_eq dflt dflt = true ->
                   r = dflt \/ (lookup_path data key_path = Some r /\ truthy r = true)))
  /\ extract_value (mk_dict [(VStr "a", VBool true)]) [VStr "a"; VStr "b"] (VInt 1)
     = Ok (VBool true)
  /\ lookup_path (mk_dict [(VStr "a", VBool true)]) [VStr "a"; VStr "b"] = None.
Proof.
  intro Hp; split; [|split; [|split; reflexivity]].
  - intros d k -> Hin; apply safe_get_dict.
    apply forallb_forall with (x := k) in Hp; assumption.
  - destruct (extract_value_total data key_path dflt Hp) as [r Hr].
    exists r; split; [exact Hr|].
    intros Hd Hrefl; exact (extract_value_shape data key_path dflt r Hd Hrefl Hr).
Qed.

Lemma accessors_never_raise_on_hashable_keys_witness :
  extract_value (mk_dict [(VStr "a", VStr "x")]) [VStr "a"; VInt 3] VNone = Ok VNone.
Proof.
  destruct (accessors_never_raise_on_hashable_keys (mk_dict [(VStr "a", VStr "x")])
              [VStr "a"; VInt 3] VNone eq_refl) as [_ [[r [Hr Hs]] _]].
  destruct (Hs py_eq_none eq_refl) as [->|[Hl _]]; [exact Hr|discriminate Hl].
Defined.

(** ** Lemmas on dict operations *)

Lemma key_eq_congr (a b c : pyval) : key_eq a b = true -> key_eq a c = key_eq b c.
Proof.
  intro H; apply key_eq_spec in H as [h [Ha Hb]].
  unfold key_eq; rewrite Ha, Hb; reflexivity.
Qed.

Lemma key_eq_sym (a b : pyval) : key_eq a b = key_eq b a.
Proof.
  destruct (key_eq a b) eqn:H1, (key_eq b a) eqn:H2; try reflexivity.
  - apply key_eq_spec in H1 as [h [Ha Hb]].
    assert (key_eq b a = true) by (apply key_eq_spec; eauto); congruence.
  - apply key_eq_spec in H2 as [h [Hb Ha]].
    assert (key_eq a b = true) by (apply key_eq_spec; eauto); congruence.
Qed.

Lemma dict_lookup_set (d : dict) (k v j : pyval) :
  dict_lookup (dict_set d k v) j = if key_eq k j then Some v else dict_lookup d j.
Proof.
  induction d as [|[k' v'] t IH]; simpl.
  - reflexivity.
  - destruct (key_eq k' k) eqn:Hk'k; simpl.
    + rewrite (key_eq_congr _ _ j Hk'k).
      destruct (key_eq k j); reflexivity.
    + rewrite IH.
      destruct (key_eq k' j) eqn:Hk'j, (key_eq k j) eqn:Hkj; try reflexivity.
      rewrite (key_eq_congr _ _ k Hk'j), key_eq_sym, Hkj in Hk'k; discriminate.
Qed.

Lemma dict_lookup_In (d : dict) (j w : pyval) :
  dict_lookup d j = Some w -> exists k, In (k, w) d /\ key_eq k j = true.
Proof.
  induction d as [|[k v] t IH]; simpl; intro H; [discriminate|].
  destruct (key_eq k j) eqn:Hk.
  - injection H as <-; exists k; auto.
  - destruct (IH H) as [k' [Hin Hk']]; exists k'; auto.
Qed.

Lemma dict_lookup_update (d n : dict) (j : pyval) :
  dict_wf n = true ->
  dict_lookup (dict_update d n) j =
  match dict_lookup n j with
  | Some v => Some v
  | None => dict_lookup d j
  end.
Proof.
  unfold dict_update; revert d.
  induction n as [|[k0 v0] n' IH]; intros d Hwf; simpl; [reflexivity|].
  simpl in Hwf; apply andb_prop in Hwf as [Hfresh Hwf'].
  rewrite (IH _ Hwf'); simpl; rewrite dict_lookup_set.
  destruct (key_eq k0 j) eqn:Hk0j.
  - destruct (dict_lookup n' j) as [w|] eqn:Hl; [|reflexivity].
    exfalso; apply dict_lookup_In in Hl as [k'' [Hin Hk'']].
    assert (Hk''k0 : key_eq k'' k0 = true).
    { rewrite (key_eq_congr _ _ k0 Hk''); rewrite key_eq_sym; exact Hk0j. }
    apply negb_true_iff in Hfresh.
    assert (existsb (fun kv => key_eq (fst kv) k0) n' = true)
      by (apply existsb_exists; exists (k'', w); auto).
    congruence.
  - reflexivity.
Qed.

Lemma dict_lookup_pop (d : dict) (k j : pyval) :
  dict_lookup (dict_pop d k) j = if key_eq j k then None else dict_lookup d j.
Proof.
  unfold dict_pop; induction d as [|[k' v'] t IH]; simpl.
  - destruct (key_eq j k); reflexivity.
  - destruct (key_eq k' k) eqn:Hk'k; simpl.
    + rewrite IH.
      destruct (key_eq j k) eqn:Hjk; [reflexivity|].
      destruct (key_eq k' j) eqn:Hk'j; [|reflexivity].
      rewrite (key_eq_congr _ _ k Hk'j) in Hk'k; congruence.
    + rewrite IH.
      destruct (key_eq j k) eqn:Hjk; [|reflexivity].
      destruct (key_eq k' j) eqn:Hk'j; [|reflexivity].
      rewrite (key_eq_congr _ _ k Hk'j) in Hk'k; congruence.
Qed.

Lemma dict_pop_absent (d : dict) (k : pyval) :
  dict_lookup d k = None -> dict_pop d k = d.
Proof.
  unfold dict_pop; induction d as [|[k' v'] t IH]; simpl; intro H; [reflexivity|].
  destruct (key_eq k' k) eqn:Hk; [discriminate|].
  simpl; rewrite (IH H); reflexivity.
Qed.

Lemma key_eq_str_refl (s : string) : key_eq (VStr s) (VStr s) = true.
Proof. unfold key_eq; simpl; apply String.eqb_refl. Qed.

(** ** C4: the Flattener *)

(** C4. [flat_nested_dictionary(r, k)]: when [r[k]] is a mapping its
    entries are merged into [r] (overwriting same-named keys); [k] is absent
    from the result in every case; every other key keeps its value when
    [r[k]] is absent or not a mapping; and when [k] is absent the record is
    returned unchanged.  The result is the new state of [r] (the source
    returns the mutated object itself). *)
Theorem flat_nested_dictionary_spec (d : dict) (k : string) :
  (forall n, dict_lookup d (VStr k) = Some (VDict n) -> dict_wf n = true) ->
  exists r, flat_nested_dictionary (VDict d) (VStr k) = Ok (VDict r)
    /\ dict_lookup r (VStr k) = None
    /\ (forall j, key_eq j (VStr k) = false ->
          dict_lookup r j =
          match dict_lookup d (VStr k) with
          | Some (VDict n) => match dict_lookup n j with
                              | Some v => Some v
                              | None => dict_lookup d j
                              end
          | _ => dict_lookup d j
          end)
    /\ (dict_lookup d (VStr k) = None -> r = d).
Proof.
  intro Hwf; unfold flat_nested_dictionary.
  rewrite safe_get_dict by reflexivity; simpl bind; unfold dict_get.
  destruct (dict_lookup d (VStr k)) as [v|] eqn:Hl.
  - destruct v as [| | | | |n];
      try (eexists; split; [reflexivity|];
           split; [rewrite dict_lookup_pop, key_eq_str_refl; reflexivity|];
           split; [intros j Hj; rewrite dict_lookup_pop, Hj; reflexivity
                  | intro; discriminate]).
    specialize (Hwf n eq_refl).
    eexists; split; [reflexivity|].
    split; [rewrite dict_lookup_pop, key_eq_str_refl; reflexivity|].
    split; [|intro; discriminate].
    intros j Hj; rewrite dict_lookup_pop, Hj, dict_lookup_update by exact Hwf.
    reflexivity.
  - exists d; split.
    + unfold dict_update; simpl; rewrite dict_pop_absent by exact Hl; reflexivity.
    + split; [exact Hl|]; split; [|reflexivity].
      intros j Hj; reflexivity.
Qed.

Lemma flat_nested_dictionary_spec_witness :
  (forall n, dict_lookup [(VStr "x", mk_dict [(VStr "a", VInt 1)]); (VStr "b", VInt 2)] (VStr "x")
             = Some (VDict n) -> dict_wf n = true)
  /\ exists r, flat_nested_dictionary (VDict [(VStr "x", mk_dict [(VStr "a", VInt 1)]); (VStr "b", VInt 2)])
                 (VStr "x") = Ok (VDict r)
    /\ dict_lookup r (VStr "x") = None
    /\ (forall j, key_eq j (VStr "x") = false ->
          dict_lookup r j =
          match dict_lookup [(VStr "x", mk_dict [(VStr "a", VInt 1)]); (VStr "b", VInt 2)] (VStr "x") with
          | Some (VDict n) => match dict_lookup n j with
                              | Some v => Some v
                              | None => dict_lookup [(VStr "x", mk_dict [(VStr "a", VInt 1)]); (VStr "b", VInt 2)] j
                              end
          | _ => dict_lookup [(VStr "x", mk_dict [(VStr "a", VInt 1)]); (VStr "b", VInt 2)] j
          end)
    /\ (dict_lookup [(VStr "x", mk_dict [(VStr "a", VInt 1)]); (VStr "b", VInt 2)] (VStr "x") = None ->
        r = [(VStr "x", mk_dict [(VStr "a", VInt 1)]); (VStr "b", VInt 2)]).
Proof.
  assert (H : forall n, dict_lookup [(VStr "x", mk_dict [(VStr "a", VInt 1)]); (VStr "b", VInt 2)] (VStr "x")
              = Some (VDict n) -> dict_wf n = true)
    by (intros n Hn; simpl in Hn; injection Hn as <-; reflexivity).
  split; [exact H|].
  apply (flat_nested_dictionary_spec [(VStr "x", mk_dict [(VStr "a", VInt 1)]); (VStr "b", VInt 2)] "x");
    exact H.
Defined.

(** ** Lemmas on the [{item['id']: item for item in items}] loop *)

Definition keys_of (d : dict) : list (option hkey) := map (fun kv => canon (fst kv)) d.

Lemma hlookup_set (d : dict) (k v : pyval) (h0 h : hkey) :
  canon k = Some h0 ->
  hlookup (dict_set d k v) h = if hkey_eqb h0 h then Some v else hlookup d h.
Proof.
  intro Hk; induction d as [|[k' v'] t IH]; simpl.
  - rewrite Hk; reflexivity.
  - destruct (key_eq k' k) eqn:Hk'k; simpl.
    + apply key_eq_spec in Hk'k as [h1 [Hk' Hk1]].
      rewrite Hk in Hk1; injection Hk1 as <-; rewrite Hk'; simpl.
      destruct (hkey_eqb h0 h); reflexivity.
    + rewrite IH.
      destruct (is_key (canon k') h) eqn:Hk'h, (hkey_eqb h0 h) eqn:Hh0; try reflexivity.
      apply is_key_spec in Hk'h; apply hkey_eqb_spec in Hh0; subst.
      assert (key_eq k' k = true) by (apply key_eq_spec; eauto); congruence.
Qed.

Lemma keys_of_set_In (d : dict) (k v : pyval) (x : option hkey) :
  In x (keys_of (dict_set d k v)) -> In x (keys_of d) \/ x = canon k.
Proof.
  induction d as [|[k' v'] t IH]; simpl.
  - intros [H|[]]; right; symmetry; exact H.
  - destruct (key_eq k' k); simpl; intros [H|H]; auto.
    destruct (IH H); auto.
Qed.

Lemma NoDup_keys_of_set (d : dict) (k v : pyval) :
  hashable k = true -> NoDup (keys_of d) -> NoDup (keys_of (dict_set d k v)).
Proof.
  unfold hashable; intro Hh; destruct (canon k) as [h0|] eqn:Hk; [clear Hh|discriminate].
  induction d as [|[k' v'] t IH]; simpl; intro Hnd.
  - constructor; [intros []|constructor].
  - inversion Hnd as [|x l Hnin Hnd' Heq]; subst.
    destruct (key_eq k' k) eqn:Hk'k; simpl; constructor; auto.
    intro Hin; apply keys_of_set_In in Hin as [Hin|Hin]; [contradiction|].
    rewrite Hk in Hin.
    assert (key_eq k' k = true) by (apply key_eq_spec; exists h0; split; congruence).
    congruence.
Qed.

Lemma In_set (d : dict) (k v : pyval) (kv : pyval * pyval) :
  In kv (dict_set d k v) -> In kv d \/ (snd kv = v /\ canon (fst kv) = canon k).
Proof.
  induction d as [|[k' v'] t IH]; simpl.
  - intros [H|[]]; subst; auto.
  - destruct (key_eq k' k) eqn:Hk'k; simpl; intros [H|H]; subst; auto.
    + right; split; [reflexivity|].
      apply key_eq_spec in Hk'k as [h [H1 H2]]; simpl; congruence.
    + destruct (IH H); auto.
Qed.

Lemma hlookup_In (d : dict) (h : hkey) (y : pyval) :
  hlookup d h = Some y -> exists k, In (k, y) d /\ canon k = Some h.
Proof.
  induction d as [|[k v] t IH]; simpl; intro H; [discriminate|].
  destruct (is_key (canon k) h) eqn:Hk.
  - injection H as <-; apply is_key_spec in Hk; eauto.
  - destruct (IH H) as [k' [Hin Hk']]; eauto.
Qed.

Lemma hlookup_NoDup_In (d : dict) (k r : pyval) (h : hkey) :
  NoDup (keys_of d) -> In (k, r) d -> canon k = Some h -> hlookup d h = Some r.
Proof.
  induction d as [|[k' v'] t IH]; simpl; intros Hnd Hin Hk; [contradiction|].
  inversion Hnd as [|x l Hnin Hnd' Heq]; subst.
  destruct Hin as [Heq|Hin].
  - injection Heq as -> ->; rewrite Hk; simpl; rewrite hkey_eqb_refl; reflexivity.
  - destruct (is_key (canon k') h) eqn:Hk'.
    + exfalso; apply is_key_spec in Hk'; apply Hnin.
      rewrite Hk'; rewrite <- Hk; apply (in_map (fun kv => canon (fst kv)) t (k, r)); exact Hin.
    + apply IH; assumption.
Qed.

Lemma last_with_id_In (l : list pyval) (a : pyval) (h : hkey) :
  In a l -> id_key a = Some h -> exists y, last_with_id h l = Some y.
Proof.
  induction l as [|x t IH]; simpl; [intros []|].
  intros [->|Hin] Ha.
  - destruct (last_with_id h t); [eauto|].
    rewrite Ha; simpl; rewrite hkey_eqb_refl; eauto.
  - destruct (IH Hin Ha) as [y Hy]; rewrite Hy; eauto.
Qed.

(** The invariants of the dedup loop: every item has a hashable id, the
    dict maps each item's id to the item, holds each id once, and under
    each id holds the last item carrying it. *)
Lemma dedup_by_id_spec (acc : dict) (items : list pyval) (u : dict) :
  Spotify.dedup_by_id acc items = Ok u ->
  (forall kv, In kv acc -> exists h, canon (fst kv) = Some h /\ id_key (snd kv) = Some h) ->
  NoDup (keys_of acc) ->
  (forall a, In a items -> exists h, id_key a = Some h)
  /\ (forall kv, In kv u -> exists h, canon (fst kv) = Some h /\ id_key (snd kv) = Some h)
  /\ NoDup (keys_of u)
  /\ (forall h, hlookup u h = match last_with_id h items with
                              | Some a => Some a
                              | None => hlookup acc h
                              end).
Proof.
  revert acc; induction items as [|a t IH]; intros acc Hd Hacc Hnd; simpl in Hd.
  - injection Hd as <-; repeat split; auto; intros a [].
  - destruct (subscript a (VStr "id")) as [k|e] eqn:Hsub; [|discriminate]; simpl in Hd.
    destruct (canon k) as [h0|] eqn:Hk; [|discriminate].
    assert (Hid : id_key a = Some h0) by (unfold id_key; rewrite Hsub; exact Hk).
    destruct (IH (dict_set acc k a) Hd) as [Hall [Hinv [Hnd' Hl]]].
    + intros kv Hin; apply In_set in Hin as [Hin|[Hv Hc]]; [apply Hacc; exact Hin|].
      exists h0; rewrite Hv, Hc, Hk; split; [reflexivity | exact Hid].
    + apply NoDup_keys_of_set; [unfold hashable; rewrite Hk; reflexivity | exact Hnd].
    + split; [|split; [exact Hinv|split; [exact Hnd'|]]].
      * intros b [<-|Hin]; [exists h0; exact Hid | apply Hall; exact Hin].
      * intro h; rewrite Hl, (hlookup_set acc k a h0 h Hk).
        simpl; destruct (last_with_id h t); [reflexivity|].
        rewrite Hid; simpl; destruct (hkey_eqb h0 h); reflexivity.
Qed.

Lemma get_artist_albums_dedup (sp : Spotify.spotify_client) (artist_id first : pyval)
  (rest albums res : list pyval) :
  Spotify.artist_albums sp artist_id = Ok (first, rest) ->
  Spotify.paginate first rest = Ok albums ->
  Spotify.get_artist_albums sp artist_id = Ok res ->
  NoDup (map id_key res)
  /\ (forall a, In a albums -> exists r, In r res /\ id_key r = id_key a)
  /\ (forall r, In r res -> exists h, id_key r = Some h /\ last_with_id h albums = Some r).
Proof.
  intros Hal Hp Hg; unfold Spotify.get_artist_albums in Hg.
  rewrite Hal in Hg; simpl in Hg; rewrite Hp in Hg; simpl in Hg.
  destruct (Spotify.dedup_by_id [] albums) as [u|e] eqn:Hd; [|discriminate].
  simpl in Hg; injection Hg as <-.
  destruct (dedup_by_id_spec [] albums u Hd) as [Hall [Hinv [Hnd Hl]]];
    [intros kv []|constructor|].
  unfold dict_values.
  assert (Hmap : map id_key (map snd u) = keys_of u).
  { unfold keys_of; rewrite map_map; apply map_ext_in.
    intros [k r] Hin; destruct (Hinv (k, r) Hin) as [h [H1 H2]]; simpl in *; congruence. }
  split; [rewrite Hmap; exact Hnd|split].
  - intros a Hin; destruct (Hall a Hin) as [h Ha].
    destruct (last_with_id_In albums a h Hin Ha) as [y Hy].
    specialize (Hl h); rewrite Hy in Hl.
    destruct (hlookup_In u h y Hl) as [k [Hin' Hk]].
    exists y; split; [apply (in_map snd u (k, y)); exact Hin'|].
    destruct (Hinv (k, y) Hin') as [h' [H1 H2]]; simpl in *; congruence.
  - intros r Hin; apply in_map_iff in Hin as [[k r'] [Hr Hin]]; simpl in Hr; subst r'.
    destruct (Hinv (k, r) Hin) as [h [Hk Hr]]; simpl in *.
    exists h; split; [exact Hr|].
    pose proof (hlookup_NoDup_In u k r h Hnd Hin Hk) as Hu.
    rewrite Hl in Hu; destruct (last_with_id h albums); [exact Hu|discriminate].
Qed.

(** ** C5: album pagination keeps the later page's item *)

(** C5. [get_artist_albums] returns one item per identifier occurring in
    the accumulated pages (the identifiers of the result are distinct and
    cover every accumulated item), and each returned item is the last
    accumulated item carrying its identifier, i.e. the one from the latest
    page. *)
Theorem get_artist_albums_later_page_wins (sp : Spotify.spotify_client)
  (artist_id first : pyval) (rest albums res : list pyval) :
  Spotify.artist_albums sp artist_id = Ok (first, rest) ->
  Spotify.paginate first rest = Ok albums ->
  Spotify.get_artist_albums sp artist_id = Ok res ->
  NoDup (map id_key res)
  /\ (forall a, In a albums -> exists r, In r res /\ id_key r = id_key a)
  /\ (forall r, In r res -> exists h, id_key r = Some h /\ last_with_id h albums = Some r).
Proof. apply get_artist_albums_dedup. Qed.

(** The spec's scenario: three pages of two items, identifier 1 on pages 1
    and 3. *)
Lemma get_artist_albums_later_page_wins_witness :
  Spotify.get_artist_albums sample_spotify_client (VStr "artist") = Ok sample_deduplicated
  /\ (NoDup (map id_key sample_deduplicated)
      /\ (forall a, In a sample_accumulated ->
                    exists r, In r sample_deduplicated /\ id_key r = id_key a)
      /\ (forall r, In r sample_deduplicated ->
                    exists h, id_key r = Some h /\ last_with_id h sample_accumulated = Some r)).
Proof.
  split; [vm_compute; reflexivity|].
  apply (get_artist_albums_later_page_wins sample_spotify_client (VStr "artist")
           (fst sample_pages) (snd sample_pages)); vm_compute; reflexivity.
Defined.

(** ** C3: the two paginated traversals *)

(** C3 (counterexample). [get_album_tracks] does not deduplicate: with the
    identifier 1 on page 1 and page 3, both items are returned. *)
Lemma get_album_tracks_keeps_duplicates :
  Spotify.get_album_tracks sample_spotify_client (VStr "album") = Ok sample_accumulated
  /\ ~ NoDup (map id_key sample_accumulated).
Proof.
  split; [vm_compute; reflexivity|].
  intro H; vm_compute in H.
  inversion H as [|x l Hnin _]; apply Hnin; simpl; auto 6.
Qed.

(** C3 (amended). The album traversal deduplicates the accumulated pages
    by [id] with last-write-wins and returns the dict's values as a list;
    the track traversal returns every accumulated item in page order,
    duplicates included. *)
Theorem collection_traversals (sp : Spotify.spotify_client)
  (artist_id first : pyval) (rest albums res : list pyval)
  (album_id tfirst : pyval) (trest tracks : list pyval) :
  Spotify.artist_albums sp artist_id = Ok (first, rest) ->
  Spotify.paginate first rest = Ok albums ->
  Spotify.get_artist_albums sp artist_id = Ok res ->
  Spotify.album_tracks sp album_id = Ok (tfirst, trest) ->
  Spotify.paginate tfirst trest = Ok tracks ->
  (NoDup (map id_key res)
   /\ (forall a, In a albums -> exists r, In r res /\ id_key r = id_key a)
   /\ (forall r, In r res -> exists h, id_key r = Some h /\ last_with_id h albums = Some r))
  /\ Spotify.get_album_tracks sp album_id = Ok tracks.
Proof.
  intros Hal Hp Hg Hat Htp; split.
  - exact (get_artist_albums_dedup sp artist_id first rest albums res Hal Hp Hg).
  - unfold Spotify.get_album_tracks; rewrite Hat; simpl; exact Htp.
Qed.

Lemma collection_traversals_witness :
  (NoDup (map id_key sample_deduplicated)
   /\ (forall a, In a sample_accumulated ->
                 exists r, In r sample_deduplicated /\ id_key r = id_key a)
   /\ (forall r, In r sample_deduplicated ->
                 exists h, id_key r = Some h /\ last_with_id h sample_accumulated = Some r))
  /\ Spotify.get_album_tracks sample_spotify_client (VStr "album") = Ok sample_accumulated.
Proof.
  apply (collection_traversals sample_spotify_client (VStr "artist")
           (fst sample_pages) (snd sample_pages) sample_accumulated sample_deduplicated
           (VStr "album") (fst sample_pages) (snd sample_pages));
    vm_compute; reflexivity.
Defined.

(** ** Error surfaces of the orchestrators *)

Lemma try_except_raise_class {A} (m : result A) (c : exn_class) (f : exn -> string) (e : exn) :
  try_except m (fun e0 => raise c (f e0)) = Err e -> exn_cls e = c.
Proof. destruct m; simpl; intro H; [discriminate|injection H as <-; reflexivity]. Qed.

Lemma genius_artist_search_err (gc : Genius.genius_client) (name : string) (n : Z) (e : exn) :
  Genius.genius_artist_search gc name n = Err e -> exn_cls e = GeniusAPIError.
Proof. apply try_except_raise_class. Qed.

Lemma build_genius_artist_data_err (r : pyval) (e : exn) :
  Genius.build_genius_artist_data r = Err e -> exn_cls e = TrackDataError.
Proof. apply try_except_raise_class. Qed.

(** ** C2: a name mismatch on Genius *)

(** C2 (evaluated). When the search returns no artist, or an artist whose
    name differs from the query, [genius_artist_search] raises
    [ArtistNotFoundError] inside its own [try] and its [except Exception]
    re-raises it as a plain [GeniusAPIError]: that is what reaches the
    caller of [fetch_genius_artist_data], and no record is returned. *)
Theorem fetch_genius_not_found_surfaces_as_api_error (gc : Genius.genius_client)
  (name : string) (n : Z) :
  (Genius.search_artist gc name n = Ok None
   \/ exists d, Genius.search_artist gc name n = Ok (Some (VDict d))
                /\ py_eq (dict_get d (VStr "name") UNKNOWN_VALUE) (VStr name) = false) ->
  Genius.fetch_genius_artist_data gc name n
  = Err (Exn GeniusAPIError
           ("Error fetching artist '" ++ name ++ "' from Genius API: Artist '" ++ name
            ++ "' not found on Genius.")).
Proof.
  intro H; unfold Genius.fetch_genius_artist_data, Genius.genius_artist_search.
  destruct H as [H|[d [H Hne]]]; rewrite H.
  - reflexivity.
  - cbn [bind try_except]; rewrite safe_get_dict by reflexivity; cbn [bind].
    rewrite Hne; reflexivity.
Qed.

Lemma fetch_genius_not_found_surfaces_as_api_error_witness :
  Genius.fetch_genius_artist_data (sample_genius_client "Other" []) "Test" 10
  = Err (Exn GeniusAPIError
           ("Error fetching artist '" ++ "Test" ++ "' from Genius API: Artist '" ++ "Test"
            ++ "' not found on Genius.")).
Proof.
  apply fetch_genius_not_found_surfaces_as_api_error.
  right; eexists; split; reflexivity.
Defined.

(** ** C6: the orchestrator boundaries *)

(** C6 (counterexample). [fetch_spotify_artist_data] has no handler: an
    error the client raises during the search reaches the caller as it is,
    not as a domain error. *)
Lemma fetch_spotify_propagates_client_error :
  Spotify.fetch_spotify_artist_data sample_spotify_client "Test"
  = Err (Exn ProviderError "http status: 500").
Proof. reflexivity. Qed.

(** C6 (amended). Every error out of [fetch_genius_artist_data] is a
    [GeniusAPIError] (or a subclass); the search's and the builder's errors
    pass through unchanged.  [fetch_spotify_artist_data] catches nothing: an
    error of its search, artist builder or track builder is what its caller
    receives. *)
Theorem orchestrator_error_surfaces (gc : Genius.genius_client) (sp : Spotify.spotify_client)
  (name : string) (n : Z) (e : exn) :
  (Genius.fetch_genius_artist_data gc name n = Err e ->
   is_subclass (exn_cls e) GeniusAPIError = true)
  /\ (Genius.genius_artist_search gc name n = Err e ->
      Genius.fetch_genius_artist_data gc name n = Err e)
  /\ (forall a, Genius.genius_artist_search gc name n = Ok a ->
                Genius.build_genius_artist_data a = Err e ->
                Genius.fetch_genius_artist_data gc name n = Err e)
  /\ (Spotify.spotify_artist_search sp name = Err e ->
      Spotify.fetch_spotify_artist_data sp name = Err e)
  /\ (forall r, Spotify.spotify_artist_search sp name = Ok r ->
                Spotify.build_spotify_artist_data sp r = Err e ->
                Spotify.fetch_spotify_artist_data sp name = Err e)
  /\ (forall r data artist_id,
        Spotify.spotify_artist_search sp name = Ok r ->
        Spotify.build_spotify_artist_data sp r = Ok data ->
        subscript data (VStr "spotify_artist_id") = Ok artist_id ->
        Spotify.build_spotify_artist_tracks sp artist_id = Err e ->
        Spotify.fetch_spotify_artist_data sp name = Err e).
Proof.
  split; [|split; [|split; [|split; [|split]]]].
  - unfold Genius.fetch_genius_artist_data, try_except.
    match goal with |- context [match ?b with Ok _ => _ | Err _ => _ end] =>
      destruct b as [x|e0] end; intro H; [discriminate|].
    destruct (Genius.is_known_genius_error e0) eqn:Hk.
    + injection H as <-; destruct e0 as [[] m]; vm_compute in Hk; vm_compute; congruence.
    + injection H as <-; reflexivity.
  - intro H; pose proof (genius_artist_search_err _ _ _ _ H) as Hc.
    unfold Genius.fetch_genius_artist_data; rewrite H; simpl.
    unfold Genius.is_known_genius_error; rewrite Hc; reflexivity.
  - intros a Hs Hb; pose proof (build_genius_artist_data_err _ _ Hb) as Hc.
    unfold Genius.fetch_genius_artist_data; rewrite Hs; simpl; rewrite Hb; simpl.
    unfold Genius.is_known_genius_error; rewrite Hc; reflexivity.
  - intro H; unfold Spotify.fetch_spotify_artist_data; rewrite H; reflexivity.
  - intros r Hs Hb; unfold Spotify.fetch_spotify_artist_data; rewrite Hs; simpl; rewrite Hb;
      reflexivity.
  - intros r data artist_id Hs Hb Hi Ht; unfold Spotify.fetch_spotify_artist_data.
    rewrite Hs; simpl; rewrite Hb; simpl; rewrite Hi; simpl; rewrite Ht; reflexivity.
Qed.

Lemma orchestrator_error_surfaces_witness :
  Genius.genius_artist_search (sample_genius_client "Other" []) "Test" 10
  = Err (Exn GeniusAPIError
           "Error fetching artist 'Test' from Genius API: Artist 'Test' not found on Genius.")
  /\ Genius.fetch_genius_artist_data (sample_genius_client "Other" []) "Test" 10
     = Err (Exn GeniusAPIError
              "Error fetching artist 'Test' from Genius API: Artist 'Test' not found on Genius.")
  /\ Spotify.fetch_spotify_artist_data sample_spotify_client "Test"
     = Err (Exn ProviderError "http status: 500").
Proof.
  assert (Hs : Genius.genius_artist_search (sample_genius_client "Other" []) "Test" 10
               = Err (Exn GeniusAPIError
                  "Error fetching artist 'Test' from Genius API: Artist 'Test' not found on Genius."))
    by reflexivity.
  destruct (orchestrator_error_surfaces (sample_genius_client "Other" []) sample_spotify_client
              "Test" 10 (Exn GeniusAPIError
                  "Error fetching artist 'Test' from Genius API: Artist 'Test' not found on Genius."))
    as [_ [Hg _]].
  destruct (orchestrator_error_surfaces (sample_genius_client "Other" []) sample_spotify_client
              "Test" 10 (Exn ProviderError "http status: 500"))
    as [_ [_ [_ [Hsp _]]]].
  split; [exact Hs|split; [exact (Hg Hs)|apply Hsp; reflexivity]].
Defined.

(** ** Lemmas on loops *)

Lemma map_res_ok {A B} (f : A -> result B) (l : list A) :
  Forall (fun x => exists y, f x = Ok y) l -> exists ys, map_res f l = Ok ys.
Proof.
  induction 1 as [|x t [y Hy] _ [ys Hys]]; simpl; [eexists; reflexivity|].
  rewrite Hy; simpl; rewrite Hys; eexists; reflexivity.
Qed.

Lemma map_res_In {A B} (f : A -> result B) (l : list A) (ys : list B) (x : A) (y : B) :
  map_res f l = Ok ys -> In x l -> f x = Ok y -> In y ys.
Proof.
  revert ys; induction l as [|a t IH]; simpl; intros ys Hm Hin Hx; [contradiction|].
  destruct (f a) as [ya|e] eqn:Ha; simpl in Hm; [|discriminate].
  destruct (map_res f t) as [yt|e] eqn:Ht; simpl in Hm; [|discriminate].
  injection Hm as <-.
  destruct Hin as [<-|Hin]; [left; congruence | right; apply (IH yt eq_refl Hin Hx)].
Qed.

(** ** C10: an empty Genius track *)

(** C10. [build_genius_artist_track({})] returns [None]; so when the
    artist's [songs] list holds an empty mapping (and every song builds),
    the [artist_tracks] list handed to the caller holds [None]. *)
Theorem genius_empty_track_yields_null (gc : Genius.genius_client) (name : string) (n : Z)
  (d : dict) (l : list pyval) :
  Genius.search_artist gc name n = Ok (Some (VDict d)) ->
  dict_get d (VStr "name") UNKNOWN_VALUE = VStr name ->
  dict_lookup d (VStr "songs") = Some (VList l) ->
  In (VDict []) l ->
  Forall (fun s => exists r, Genius.build_genius_artist_track s = Ok r) l ->
  Genius.build_genius_artist_track (VDict []) = Ok VNone
  /\ exists res tracks, Genius.fetch_genius_artist_data gc name n = Ok res
                        /\ subscript res (VStr "artist_tracks") = Ok (VList tracks)
                        /\ In VNone tracks.
Proof.
  intros Hs Hname Hsongs Hin Hall.
  assert (Hnone : Genius.build_genius_artist_track (VDict []) = Ok VNone) by reflexivity.
  split; [exact Hnone|].
  destruct (map_res_ok _ _ Hall) as [ts Hts].
  destruct (extract_value_total (VDict d) [VStr "description"; VStr "plain"] UNKNOWN_VALUE eq_refl)
    as [desc Hdesc].
  assert (Hsongs' : dict_get d (VStr "songs") (VDict []) = VList l)
    by (unfold dict_get; rewrite Hsongs; reflexivity).
  unfold Genius.fetch_genius_artist_data, Genius.genius_artist_search.
  rewrite Hs; cbn [bind try_except]; rewrite safe_get_dict by reflexivity; cbn [bind].
  rewrite Hname, py_eq_str_refl; cbn [negb try_except bind].
  unfold Genius.build_genius_artist_data, safe_extract.
  rewrite !safe_get_dict by reflexivity; rewrite Hdesc, Hsongs'; cbn [bind py_iter].
  rewrite Hts; cbn [bind try_except].
  eexists; exists ts; split; [reflexivity|]; split; [reflexivity|].
  exact (map_res_In _ _ _ _ _ Hts Hin Hnone).
Qed.

Lemma genius_empty_track_yields_null_witness :
  Genius.build_genius_artist_track (VDict []) = Ok VNone
  /\ exists res tracks,
       Genius.fetch_genius_artist_data (sample_genius_client "Test" [sample_song; VDict []]) "Test" 10
       = Ok res
       /\ subscript res (VStr "artist_tracks") = Ok (VList tracks)
       /\ In VNone tracks.
Proof.
  apply (genius_empty_track_yields_null (sample_genius_client "Test" [sample_song; VDict []])
           "Test" 10
           [(VStr "id", VInt 1); (VStr "name", VStr "Test"); (VStr "songs", VList [sample_song; VDict []])]
           [sample_song; VDict []]).
  - reflexivity.
  - reflexivity.
  - reflexivity.
  - right; left; reflexivity.
  - repeat constructor; eexists; reflexivity.
Defined.

(** ** C9: primary and secondary artists of a Genius track *)

Lemma dict_lookup_hashable (d : dict) (k v : pyval) :
  dict_lookup d k = Some v -> hashable k = true.
Proof.
  intro H; apply dict_lookup_In in H as [k' [_ H]].
  apply key_eq_spec in H as [h [_ Hk]]; unfold hashable; rewrite Hk; reflexivity.
Qed.

(** A truthy value the whole path leads to is what [extract_value] returns. *)
Lemma extract_value_found (data : pyval) (key_path : list pyval) (v : pyval) (s : string) :
  lookup_path data key_path = Some v -> truthy v = true ->
  extract_value data key_path (VStr s) = Ok v.
Proof.
  revert data; induction key_path as [|k rest IH]; intros data Hp Ht.
  - simpl in Hp; injection Hp as <-; unfold extract_value; simpl; rewrite Ht; reflexivity.
  - destruct data as [| | | | |d]; try discriminate; simpl in Hp.
    destruct (dict_lookup d k) as [v'|] eqn:Hl; [|discriminate].
    rewrite extract_value_cons by (eapply dict_lookup_hashable; exact Hl); cbv zeta.
    unfold dict_get; rewrite Hl.
    destruct (py_eq v' (VStr s)) eqn:He.
    + apply py_eq_str in He; subst v'.
      destruct rest as [|k' rest']; [|discriminate].
      simpl in Hp; injection Hp as <-; rewrite Ht; reflexivity.
    + apply IH; assumption.
Qed.

Lemma filter_map_names (l : list pyval) (pa : pyval) :
  forallb is_dict l = true ->
  filter_map_res
    (fun artist => n <- safe_get artist (VStr "name") UNKNOWN_VALUE ;; Ok (negb (py_eq n pa)))
    (fun artist => safe_get artist (VStr "name") UNKNOWN_VALUE) l
  = Ok (map name_of (filter (fun a => negb (py_eq (name_of a) pa)) l)).
Proof.
  induction l as [|a t IH]; cbn [filter_map_res forallb]; intro H; [reflexivity|].
  apply andb_prop in H as [Ha Ht].
  destruct a as [| | | | |da]; try discriminate.
  rewrite safe_get_dict by reflexivity; cbn [bind filter name_of].
  destruct (negb (py_eq (dict_get da (VStr "name") UNKNOWN_VALUE) pa)); cbn [bind].
  - rewrite (IH Ht); reflexivity.
  - exact (IH Ht).
Qed.

(** C9. In a built Genius track record, [primary_artist] is
    [safe_extract(track, ['primary_artist', 'name'])] (the name itself when
    it is a non-empty string), and [primary_artists] lists the names of all
    listed primary artists except those equal to it, other duplicates kept;
    on the spec's end-to-end song the record has [primary_artist = "Test"]
    and [primary_artists = ["Feat"]]. *)
Theorem genius_track_primary_artists (d : dict) (l : list pyval) :
  d <> [] ->
  ((dict_lookup d (VStr "primary_artists") = Some (VList l) /\ forallb is_dict l = true)
   \/ (dict_lookup d (VStr "primary_artists") = None /\ l = [])) ->
  (exists r pa,
      Genius.build_genius_artist_track (VDict d) = Ok (VDict r)
      /\ safe_extract (VDict d) [VStr "primary_artist"; VStr "name"] UNKNOWN_VALUE = Ok pa
      /\ dict_lookup r (VStr "primary_artist") = Some pa
      /\ dict_lookup r (VStr "primary_artists")
         = Some (VList (map name_of (filter (fun a => negb (py_eq (name_of a) pa)) l)))
      /\ (forall s, lookup_path (VDict d) [VStr "primary_artist"; VStr "name"] = Some (VStr s) ->
                    s <> "" -> pa = VStr s))
  /\ (exists r0, Genius.build_genius_artist_track sample_song = Ok (VDict r0)
                 /\ dict_lookup r0 (VStr "primary_artist") = Some (VStr "Test")
                 /\ dict_lookup r0 (VStr "primary_artists") = Some (VList [VStr "Feat"])).
Proof.
  intros Hne Hpas; split; [|eexists; split; [reflexivity|split; reflexivity]].
  assert (Hne' : py_eq (VDict d) (VDict []) = false)
    by (destruct d; [contradiction|reflexivity]).
  assert (Hl : dict_get d (VStr "primary_artists") (VList []) = VList l /\ forallb is_dict l = true)
    by (unfold dict_get; destruct Hpas as [[H1 H2]|[H1 H2]]; rewrite H1; subst; auto).
  destruct Hl as [Hl Hdicts].
  destruct (extract_value_total (VDict d) [VStr "primary_artist"; VStr "name"] UNKNOWN_VALUE eq_refl)
    as [pa Hpa].
  destruct (extract_value_total (VDict d) [VStr "stats"; VStr "pageviews"] UNKNOWN_VALUE eq_refl)
    as [pv Hpv].
  destruct (extract_value_total (VDict d) [VStr "description"; VStr "plain"] UNKNOWN_VALUE eq_refl)
    as [desc Hdesc].
  unfold Genius.build_genius_artist_track; cbv zeta; rewrite Hne'.
  unfold safe_extract; rewrite Hpa, Hpv, Hdesc.
  rewrite !safe_get_dict by reflexivity; cbn [bind].
  rewrite Hl; cbn [bind py_iter].
  rewrite (filter_map_names l pa Hdicts); cbn [bind try_except].
  eexists; exists pa; split; [reflexivity|].
  split; [reflexivity|]; split; [reflexivity|]; split; [reflexivity|].
  intros s Hp Hs.
  assert (Ht : truthy (VStr s) = true)
    by (simpl; destruct (String.eqb s "") eqn:E; [apply String.eqb_eq in E; contradiction
                                                  | reflexivity]).
  unfold UNKNOWN_VALUE in Hpa; rewrite (extract_value_found _ _ _ _ Hp Ht) in Hpa.
  injection Hpa as <-; reflexivity.
Qed.

Lemma genius_track_primary_artists_witness :
  (exists r pa,
      Genius.build_genius_artist_track sample_song = Ok (VDict r)
      /\ safe_extract sample_song [VStr "primary_artist"; VStr "name"] UNKNOWN_VALUE = Ok pa
      /\ dict_lookup r (VStr "primary_artist") = Some pa
      /\ dict_lookup r (VStr "primary_artists")
         = Some (VList (map name_of (filter (fun a => negb (py_eq (name_of a) pa))
                                       [mk_dict [(VStr "name", VStr "Test")];
                                        mk_dict [(VStr "name", VStr "Feat")]])))
      /\ (forall s, lookup_path sample_song [VStr "primary_artist"; VStr "name"] = Some (VStr s) ->
                    s <> "" -> pa = VStr s))
  /\ (exists r0, Genius.build_genius_artist_track sample_song = Ok (VDict r0)
                 /\ dict_lookup r0 (VStr "primary_artist") = Some (VStr "Test")
                 /\ dict_lookup r0 (VStr "primary_artists") = Some (VList [VStr "Feat"])).
Proof.
  apply (genius_track_primary_artists
           [(VStr "id", VInt 10); (VStr "title", VStr "A");
            (VStr "primary_artist", mk_dict [(VStr "name", VStr "Test")]);
            (VStr "primary_artists", VList [mk_dict [(VStr "name", VStr "Test")];
                                          mk_dict [(VStr "name", VStr "Feat")]])]).
  - discriminate.
  - left; split; reflexivity.
Defined.

(** ** C7: missing fields in the record builders *)












(** ** Extra properties: [suppress_stdout] and the client setup *)

Lemma lib_call_run {A} (lines : list string) (r : result A) (h : Setup.handle) w :
  Setup.lib_call (lines, r) (Setup.IO h w)
  = (match r with
     | Ok a => Setup.Done a
     | Err e => Setup.Raised (Setup.SExn (Setup.Lib (exn_cls e)) (exn_msg e))
     end, Setup.IO h (w ++ map (fun l => (h, l)) lines)).
Proof.
  unfold Setup.lib_call; simpl fst; simpl snd.
  revert w; induction lines as [|l t IH]; intro w; simpl.
  - rewrite app_nil_r; reflexivity.
  - unfold Setup.mbind at 1; simpl.
    rewrite IH, <- app_assoc; reflexivity.
Qed.

(** [suppress_stdout] in full: the body runs with [sys.stdout] set to the
    null device; afterwards [sys.stdout] is what it was before, whether the
    body returned or raised, and the body's outcome passes through. *)
Theorem suppress_stdout_restores {A} (body : Setup.M A) (s : Setup.io) :
  Setup.suppress_stdout body s
  = let (o, s1) := body (Setup.IO Setup.Devnull (Setup.written s)) in
    (o, Setup.IO (Setup.stdout s) (Setup.written s1)).
Proof.
  destruct s as [h w]; unfold Setup.suppress_stdout, Setup.mbind, Setup.get_stdout,
    Setup.set_stdout, Setup.mfinally; simpl.
  destruct (body (Setup.IO Setup.Devnull w)) as [o s1]; reflexivity.
Qed.

Lemma create_genius_client_run {G} (getenv : string -> option string)
  (ctor : string -> result G) (probe : G -> list string * result pyval) (h : Setup.handle) w :
  Setup.create_genius_client getenv ctor probe (Setup.IO h w)
  = match Setup.env_truthy (getenv "GENIUS_API_TOKEN") with
    | None => (Setup.Raised (Setup.SExn Setup.InvalidTokenError Setup.genius_token_missing),
               Setup.IO h w)
    | Some tok =>
        match ctor tok with
        | Err e => (Setup.Raised (Setup.SExn Setup.GeniusClientError
                      ("An unexpected error occurred in the Genius client setup: " ++ exn_msg e)),
                    Setup.IO h w)
        | Ok g =>
            match snd (probe g) with
            | Err e => (Setup.Raised (Setup.SExn Setup.GeniusConnectionError
                          ("Failed to connect to Genius API: " ++ exn_msg e)),
                        Setup.IO h (w ++ map (fun l => (Setup.Devnull, l)) (fst (probe g))))
            | Ok _ => (Setup.Done g,
                       Setup.IO h (w ++ map (fun l => (Setup.Devnull, l)) (fst (probe g))
                                     ++ [(h, "INFO: Connection Successful!")]))
            end
        end
    end.
Proof.
  unfold Setup.create_genius_client.
  destruct (Setup.env_truthy (getenv "GENIUS_API_TOKEN")) as [tok|]; [|reflexivity].
  unfold Setup.mtry at 1, Setup.mbind at 1, Setup.lift at 1.
  destruct (ctor tok) as [g|e]; [|reflexivity].
  unfold Setup.mbind at 1, Setup.mtry at 1, Setup.mbind at 1.
  rewrite suppress_stdout_restores; simpl.
  destruct (probe g) as [lines r]; rewrite lib_call_run; simpl.
  destruct r; simpl; [rewrite <- app_assoc|]; reflexivity.
Qed.

Lemma create_spotify_client_run {C S} (getenv : string -> option string)
  (creds : string -> string -> result C) (ctor : C -> result S) (search : S -> result pyval)
  (s : Setup.io) :
  Setup.create_spotify_client getenv creds ctor search s
  = match Setup.env_truthy (getenv "CLIENT_ID_SPOTIFY"),
          Setup.env_truthy (getenv "CLIENT_SECRET_SPOTIFY") with
    | Some cid, Some csec =>
        match creds cid csec with
        | Err e => (Setup.Raised (Setup.SExn Setup.SpotifyClientError
                      ("An unexpected error occurred in the Spotify client setup: " ++ exn_msg e)), s)
        | Ok m =>
            match ctor m with
            | Err e => (Setup.Raised (Setup.SExn Setup.SpotifyClientError
                          ("An unexpected error occurred in the Spotify client setup: " ++ exn_msg e)), s)
            | Ok sp =>
                match search sp with
                | Err e => (Setup.Raised (Setup.SExn Setup.SpotifyConnectionError
                              ("Failed to connect to Spotify API: " ++ exn_msg e)), s)
                | Ok _ => (Setup.Done sp,
                           Setup.IO (Setup.stdout s)
                             (Setup.written s ++ [(Setup.stdout s, "INFO: Spotify Connection Successful!")]))
                end
            end
        end
    | _, _ => (Setup.Raised (Setup.SExn Setup.InvalidCredentialsError Setup.spotify_credentials_missing), s)
    end.
Proof.
  unfold Setup.create_spotify_client.
  destruct (Setup.env_truthy (getenv "CLIENT_ID_SPOTIFY")) as [cid|];
    [|reflexivity].
  destruct (Setup.env_truthy (getenv "CLIENT_SECRET_SPOTIFY")) as [csec|]; [|reflexivity].
  unfold Setup.mtry at 1, Setup.mbind at 1, Setup.lift at 1.
  destruct (creds cid csec) as [m|e]; [|reflexivity].
  unfold Setup.mbind at 1, Setup.lift at 1.
  destruct (ctor m) as [sp|e]; [|reflexivity].
  unfold Setup.mbind at 1, Setup.mtry at 1, Setup.mbind at 1, Setup.lift at 1.
  destruct (search sp); reflexivity.
Qed.

(** [create_genius_client()] case by case: an absent or empty
    [GENIUS_API_TOKEN] raises [InvalidTokenError] before anything else; an
    error of the [lyricsgenius.Genius] constructor becomes a
    [GeniusClientError] ("An unexpected error occurred ..."); an error of
    the probe search becomes a [GeniusConnectionError] ("Failed to connect
    to Genius API: ..."); otherwise the client is returned.  Whatever the
    probe prints goes to the null device, the success line to the caller's
    [sys.stdout], which is left as it was. *)
Theorem create_genius_client_cases {G} (getenv : string -> option string)
  (ctor : string -> result G) (probe : G -> list string * result pyval) (h : Setup.handle) w :
  ((getenv "GENIUS_API_TOKEN" = None \/ getenv "GENIUS_API_TOKEN" = Some "") ->
   Setup.create_genius_client getenv ctor probe (Setup.IO h w)
   = (Setup.Raised (Setup.SExn Setup.InvalidTokenError Setup.genius_token_missing), Setup.IO h w))
  /\ (forall tok e, getenv "GENIUS_API_TOKEN" = Some tok -> tok <> "" -> ctor tok = Err e ->
      Setup.create_genius_client getenv ctor probe (Setup.IO h w)
      = (Setup.Raised (Setup.SExn Setup.GeniusClientError
           ("An unexpected error occurred in the Genius client setup: " ++ exn_msg e)),
         Setup.IO h w))
  /\ (forall tok g lines e, getenv "GENIUS_API_TOKEN" = Some tok -> tok <> "" -> ctor tok = Ok g ->
      probe g = (lines, Err e) ->
      Setup.create_genius_client getenv ctor probe (Setup.IO h w)
      = (Setup.Raised (Setup.SExn Setup.GeniusConnectionError
           ("Failed to connect to Genius API: " ++ exn_msg e)),
         Setup.IO h (w ++ map (fun l => (Setup.Devnull, l)) lines)))
  /\ (forall tok g lines v, getenv "GENIUS_API_TOKEN" = Some tok -> tok <> "" -> ctor tok = Ok g ->
      probe g = (lines, Ok v) ->
      Setup.create_genius_client getenv ctor probe (Setup.IO h w)
      = (Setup.Done g, Setup.IO h (w ++ map (fun l => (Setup.Devnull, l)) lines
                                    ++ [(h, "INFO: Connection Successful!")]))).
Proof.
  rewrite create_genius_client_run.
  assert (Htok : forall tok, getenv "GENIUS_API_TOKEN" = Some tok -> tok <> "" ->
                 Setup.env_truthy (getenv "GENIUS_API_TOKEN") = Some tok).
  { intros tok H Hne; rewrite H; simpl.
    destruct (String.eqb tok "") eqn:E; [apply String.eqb_eq in E; contradiction|reflexivity]. }
  split; [|split; [|split]].
  - intros [H|H]; rewrite H; reflexivity.
  - intros tok e H Hne He; rewrite (Htok tok H Hne), He; reflexivity.
  - intros tok g lines e H Hne Hg Hp; rewrite (Htok tok H Hne), Hg, Hp; reflexivity.
  - intros tok g lines v H Hne Hg Hp; rewrite (Htok tok H Hne), Hg, Hp; reflexivity.
Qed.

Lemma create_genius_client_cases_witness :
  Setup.create_genius_client (fun _ => Some "token") (fun _ => Ok tt)
    (fun _ => (["Searching for songs by ABCDEFGHIJKLMNOPKRSTUVWXYZ..."], Ok VNone))
    (Setup.IO (Setup.Stream 1) [])
  = (Setup.Done tt,
     Setup.IO (Setup.Stream 1)
       ([] ++ map (fun l => (Setup.Devnull, l))
                ["Searching for songs by ABCDEFGHIJKLMNOPKRSTUVWXYZ..."]
           ++ [(Setup.Stream 1, "INFO: Connection Successful!")])).
Proof.
  refine (proj2 (proj2 (proj2 (create_genius_client_cases (fun _ => Some "token") (fun _ => Ok tt)
           (fun _ => (["Searching for songs by ABCDEFGHIJKLMNOPKRSTUVWXYZ..."], Ok VNone))
           (Setup.Stream 1) []))) "token" tt _ VNone eq_refl _ eq_refl eq_refl).
  discriminate.
Defined.

(** [create_spotify_client()] case by case: an absent or empty
    [CLIENT_ID_SPOTIFY] or [CLIENT_SECRET_SPOTIFY] raises
    [InvalidCredentialsError]; an error of either constructor becomes a
    [SpotifyClientError] ("An unexpected error occurred ..."); an error of
    the probe search becomes a [SpotifyConnectionError] ("Failed to connect
    to Spotify API: ..."); otherwise the client is returned and only the
    success line is printed. *)
Theorem create_spotify_client_cases {C S} (getenv : string -> option string)
  (creds : string -> string -> result C) (ctor : C -> result S) (search : S -> result pyval)
  (s : Setup.io) :
  ((getenv "CLIENT_ID_SPOTIFY" = None \/ getenv "CLIENT_ID_SPOTIFY" = Some ""
    \/ getenv "CLIENT_SECRET_SPOTIFY" = None \/ getenv "CLIENT_SECRET_SPOTIFY" = Some "") ->
   Setup.create_spotify_client getenv creds ctor search s
   = (Setup.Raised (Setup.SExn Setup.InvalidCredentialsError Setup.spotify_credentials_missing), s))
  /\ (forall cid csec, getenv "CLIENT_ID_SPOTIFY" = Some cid -> cid <> "" ->
      getenv "CLIENT_SECRET_SPOTIFY" = Some csec -> csec <> "" ->
      (forall e, creds cid csec = Err e ->
         Setup.create_spotify_client getenv creds ctor search s
         = (Setup.Raised (Setup.SExn Setup.SpotifyClientError
              ("An unexpected error occurred in the Spotify client setup: " ++ exn_msg e)), s))
      /\ (forall m e, creds cid csec = Ok m -> ctor m = Err e ->
         Setup.create_spotify_client getenv creds ctor search s
         = (Setup.Raised (Setup.SExn Setup.SpotifyClientError
              ("An unexpected error occurred in the Spotify client setup: " ++ exn_msg e)), s))
      /\ (forall m sp e, creds cid csec = Ok m -> ctor m = Ok sp -> search sp = Err e ->
         Setup.create_spotify_client getenv creds ctor search s
         = (Setup.Raised (Setup.SExn Setup.SpotifyConnectionError
              ("Failed to connect to Spotify API: " ++ exn_msg e)), s))
      /\ (forall m sp v, creds cid csec = Ok m -> ctor m = Ok sp -> search sp = Ok v ->
         Setup.create_spotify_client getenv creds ctor search s
         = (Setup.Done sp,
            Setup.IO (Setup.stdout s)
              (Setup.written s ++ [(Setup.stdout s, "INFO: Spotify Connection Successful!")])))).
Proof.
  rewrite create_spotify_client_run.
  assert (Hv : forall name v, getenv name = Some v -> v <> "" ->
                 Setup.env_truthy (getenv name) = Some v).
  { intros name v H Hne; rewrite H; simpl.
    destruct (String.eqb v "") eqn:E; [apply String.eqb_eq in E; contradiction|reflexivity]. }
  split.
  - intros [H|[H|[H|H]]]; rewrite H; simpl; [reflexivity|reflexivity| |];
      destruct (Setup.env_truthy (getenv "CLIENT_ID_SPOTIFY")); reflexivity.
  - intros cid csec Hc Hcne Hs Hsne.
    rewrite (Hv _ _ Hc Hcne), (Hv _ _ Hs Hsne).
    split; [intros e He; rewrite He; reflexivity|].
    split; [intros m e Hm He; rewrite Hm, He; reflexivity|].
    split; [intros m sp e Hm Hsp He; rewrite Hm, Hsp, He; reflexivity|].
    intros m sp v Hm Hsp He; rewrite Hm, Hsp, He; reflexivity.
Qed.

Lemma create_spotify_client_cases_witness :
  Setup.create_spotify_client
    (fun name => if String.eqb name "CLIENT_ID_SPOTIFY" then Some "id" else Some "secret")
    (fun _ _ => Ok tt) (fun _ => Ok tt) (fun _ => Ok (mk_dict []))
    (Setup.IO (Setup.Stream 1) [])
  = (Setup.Done tt,
     Setup.IO (Setup.Stream 1) ([] ++ [(Setup.Stream 1, "INFO: Spotify Connection Successful!")])).
Proof.
  refine (proj2 (proj2 (proj2 (proj2 (create_spotify_client_cases
           (fun name => if String.eqb name "CLIENT_ID_SPOTIFY" then Some "id" else Some "secret")
           (fun _ _ => Ok tt) (fun _ => Ok tt) (fun _ => Ok (mk_dict []))
           (Setup.IO (Setup.Stream 1) [])) "id" "secret" eq_refl _ eq_refl _)))
           tt tt (mk_dict []) eq_refl eq_refl eq_refl); discriminate.
Defined.

(** Both client factories only ever raise their own error family
    ([GeniusClientError] or [SpotifyClientError] and subclasses), leave
    [sys.stdout] as it was, and print nothing to it but their success
    line (the Genius probe's output goes to the null device). *)
Theorem client_setup_invariants {G C S} (getenv : string -> option string)
  (ctor : string -> result G) (probe : G -> list string * result pyval)
  (creds : string -> string -> result C) (sctor : C -> result S) (search : S -> result pyval)
  (h : Setup.handle) w :
  (let (o, s') := Setup.create_genius_client getenv ctor probe (Setup.IO h w) in
   Setup.stdout s' = h
   /\ (forall e, o = Setup.Raised e -> Setup.setup_subclass (Setup.sx_cls e) Setup.GeniusClientError = true)
   /\ exists w', Setup.written s' = (w ++ w')%list
                 /\ forall x, In x w' -> fst x = Setup.Devnull \/ x = (h, "INFO: Connection Successful!"))
  /\ (let (o, s') := Setup.create_spotify_client getenv creds sctor search (Setup.IO h w) in
      Setup.stdout s' = h
      /\ (forall e, o = Setup.Raised e -> Setup.setup_subclass (Setup.sx_cls e) Setup.SpotifyClientError = true)
      /\ exists w', Setup.written s' = (w ++ w')%list
                    /\ forall x, In x w' -> x = (h, "INFO: Spotify Connection Successful!")).
Proof.
  assert (Hdev : forall (lines : list string) x,
             In x (map (fun l => (Setup.Devnull, l)) lines) -> fst x = Setup.Devnull).
  { intros lines x Hx; apply in_map_iff in Hx as [l [<- _]]; reflexivity. }
  split.
  - rewrite create_genius_client_run.
    destruct (Setup.env_truthy (getenv "GENIUS_API_TOKEN")) as [tok|];
      [destruct (ctor tok) as [g|e]; [destruct (probe g) as [lines r]; simpl; destruct r|]|].
    + split; [reflexivity|split; [intros e' He'; discriminate|]].
      exists (map (fun l => (Setup.Devnull, l)) lines ++ [(h, "INFO: Connection Successful!")])%list.
      split; [reflexivity|]; intros x Hx; apply in_app_or in Hx as [Hx|[<-|[]]];
        [left; exact (Hdev lines x Hx)|right; reflexivity].
    + split; [reflexivity|split; [intros e' He'; injection He' as <-; reflexivity|]].
      exists (map (fun l => (Setup.Devnull, l)) lines); split; [reflexivity|].
      intros x Hx; left; exact (Hdev lines x Hx).
    + split; [reflexivity|split; [intros e' He'; injection He' as <-; reflexivity|]].
      exists []; split; [rewrite app_nil_r; reflexivity|intros x []].
    + split; [reflexivity|split; [intros e' He'; injection He' as <-; reflexivity|]].
      exists []; split; [rewrite app_nil_r; reflexivity|intros x []].
  - rewrite create_spotify_client_run.
    destruct (Setup.env_truthy (getenv "CLIENT_ID_SPOTIFY")) as [cid|];
      [destruct (Setup.env_truthy (getenv "CLIENT_SECRET_SPOTIFY")) as [csec|];
       [destruct (creds cid csec) as [m|e];
        [destruct (sctor m) as [sp|e]; [destruct (search sp) as [v|e]|]|]|]|]; simpl;
      (split; [reflexivity|split]);
      try (intros e' He'; first [discriminate | injection He' as <-; reflexivity]);
      first [exists [(h, "INFO: Spotify Connection Successful!")];
             split; [reflexivity|intros x [<-|[]]; reflexivity]
            | exists []; split; [rewrite app_nil_r; reflexivity|intros x []]].
Qed.

(** ** Extra properties: helper lemmas *)


Lemma canon_str (k : pyval) (s : string) : canon k = Some (HStr s) -> k = VStr s.
Proof. destruct k; simpl; congruence. Qed.

Lemma map_res_length {A B} (f : A -> result B) (l : list A) (ys : list B) :
  map_res f l = Ok ys -> length ys = length l.
Proof.
  revert ys; induction l as [|a t IH]; simpl; intros ys H.
  - injection H as <-; reflexivity.
  - destruct (f a); simpl in H; [|discriminate].
    destruct (map_res f t) eqn:Ht; simpl in H; [|discriminate].
    injection H as <-; simpl; rewrite (IH _ eq_refl); reflexivity.
Qed.

Lemma map_res_In_inv {A B} (f : A -> result B) (l : list A) (ys : list B) (y : B) :
  map_res f l = Ok ys -> In y ys -> exists x, In x l /\ f x = Ok y.
Proof.
  revert ys; induction l as [|a t IH]; simpl; intros ys H Hy.
  - injection H as <-; contradiction.
  - destruct (f a) as [ya|] eqn:Ha; simpl in H; [|discriminate].
    destruct (map_res f t) as [yt|] eqn:Ht; simpl in H; [|discriminate].
    injection H as <-; destruct Hy as [<-|Hy].
    + exists a; split; [left; reflexivity|exact Ha].
    + destruct (IH yt eq_refl Hy) as [x [Hx Hf]]; exists x; split; [right; exact Hx|exact Hf].
Qed.

Lemma try_except_raise_msg {A} (m : result A) (c : exn_class) (p : string) (e : exn) :
  try_except m (fun e0 => raise c (p ++ exn_msg e0)) = Err e ->
  exn_cls e = c /\ exists msg, exn_msg e = (p ++ msg)%string.
Proof.
  destruct m; simpl; intro H; [discriminate|].
  injection H as <-; split; [reflexivity|eexists; reflexivity].
Qed.


(** A truthy value the whole path leads to is what [extract_value] returns,
    for a default that only equals itself and is not a dict. *)
Lemma extract_value_found_gen (data : pyval) (key_path : list pyval) (v dflt : pyval) :
  (forall w, py_eq w dflt = true -> w = dflt) -> is_dict dflt = false ->
  lookup_path data key_path = Some v -> truthy v = true ->
  extract_value data key_path dflt = Ok v.
Proof.
  intros Hd Hnd; revert data; induction key_path as [|k rest IH]; intros data Hp Ht.
  - simpl in Hp; injection Hp as <-; unfold extract_value; simpl; rewrite Ht; reflexivity.
  - destruct data as [| | | | |d]; try discriminate; simpl in Hp.
    destruct (dict_lookup d k) as [v'|] eqn:Hl; [|discriminate].
    rewrite extract_value_cons by (eapply dict_lookup_hashable; exact Hl); cbv zeta.
    unfold dict_get; rewrite Hl.
    destruct (py_eq v' dflt) eqn:He.
    + apply Hd in He; subst v'.
      destruct rest as [|k' rest'].
      * simpl in Hp; injection Hp as <-; rewrite Ht; reflexivity.
      * destruct dflt; try discriminate; simpl in Hp; discriminate.
    + apply IH; assumption.
Qed.

(** [{**d, k: v}]: [k] holds [v], every other key what [d] holds. *)
Lemma dict_lookup_mk_dict_snoc (d : dict) (k v j : pyval) :
  dict_wf d = true ->
  (match mk_dict (d ++ [(k, v)])%list with VDict r => dict_lookup r j | _ => None end)
  = if key_eq k j then Some v else dict_lookup d j.
Proof.
  intro Hwf; unfold mk_dict; rewrite fold_left_app; simpl.
  rewrite dict_lookup_set; destruct (key_eq k j); [reflexivity|].
  change (fold_left (fun acc kv => dict_set acc (fst kv) (snd kv)) d [])
    with (dict_update [] d).
  rewrite (dict_lookup_update [] d j Hwf); destruct (dict_lookup d j); reflexivity.
Qed.

Lemma dict_lookup_mk_dict (d : dict) (j : pyval) :
  dict_wf d = true ->
  (match mk_dict d with VDict r => dict_lookup r j | _ => None end) = dict_lookup d j.
Proof.
  intro Hwf; unfold mk_dict.
  change (fold_left (fun acc kv => dict_set acc (fst kv) (snd kv)) d [])
    with (dict_update [] d).
  rewrite (dict_lookup_update [] d j Hwf); destruct (dict_lookup d j); reflexivity.
Qed.

Lemma dict_wf_filter (f : pyval * pyval -> bool) (d : dict) :
  dict_wf d = true -> dict_wf (filter f d) = true.
Proof.
  induction d as [|[k v] t IH]; simpl; [reflexivity|].
  intro H; apply andb_prop in H as [Hn Ht].
  destruct (f (k, v)); simpl; [|exact (IH Ht)].
  rewrite (IH Ht), andb_true_r.
  apply negb_true_iff; apply negb_true_iff in Hn.
  apply not_true_iff_false; intro Hex; apply existsb_exists in Hex as [kv [Hin Hk]].
  apply filter_In in Hin as [Hin _].
  apply not_true_iff_false in Hn; apply Hn, existsb_exists; exists kv; split; assumption.
Qed.

(** The [{key: value for key, value in d.items() if key != s}] filter. *)
Lemma dict_lookup_filter_key (d : dict) (s : string) (j : pyval) :
  dict_lookup (filter (fun kv => negb (py_eq (fst kv) (VStr s))) d) j
  = if key_eq j (VStr s) then None else dict_lookup d j.
Proof.
  induction d as [|[k v] t IH]; simpl.
  - destruct (key_eq j (VStr s)); reflexivity.
  - destruct (py_eq k (VStr s)) eqn:Hk; simpl.
    + apply py_eq_str in Hk; subst k; rewrite IH.
      rewrite (key_eq_sym (VStr s) j); destruct (key_eq j (VStr s)); reflexivity.
    + rewrite IH.
      destruct (key_eq j (VStr s)) eqn:Hj; [|reflexivity].
      destruct (key_eq k j) eqn:Hkj; [|reflexivity].
      exfalso; rewrite <- (key_eq_congr k j (VStr s) Hkj) in Hj.
      apply key_eq_spec in Hj as [h [Hk' Hs]]; simpl in Hs; injection Hs as <-.
      apply canon_str in Hk'; subst k; rewrite py_eq_str_refl in Hk; discriminate.
Qed.

(** Whatever [flat_nested_dictionary] returns is a dict without the key. *)
Lemma flat_nested_dictionary_drops_key (x r : pyval) (k : string) :
  flat_nested_dictionary x (VStr k) = Ok r ->
  exists d, r = VDict d /\ dict_lookup d (VStr k) = None.
Proof.
  destruct x as [| | | | |dd]; try discriminate.
  unfold flat_nested_dictionary; rewrite safe_get_dict by reflexivity; simpl.
  intro H; injection H as <-; eexists; split; [reflexivity|].
  rewrite dict_lookup_pop, key_eq_str_refl; reflexivity.
Qed.

(** Run a chain of [x <- m ;; k] steps that is known to succeed. *)
Ltac ok_chain H :=
  repeat match type of H with
  | bind ?m _ = Ok _ =>
      let E := fresh "E" in
      destruct m eqn:E; cbn [bind] in H; [|discriminate H]
  end.

Lemma build_spotify_artist_data_id (sp : Spotify.spotify_client) (ad : dict) (a : pyval) :
  Spotify.build_spotify_artist_data sp (VDict ad) = Ok a ->
  exists r, a = VDict r
            /\ dict_lookup r (VStr "spotify_artist_id") = Some (dict_get ad (VStr "id") UNKNOWN_VALUE).
Proof.
  unfold Spotify.build_spotify_artist_data; cbv zeta; unfold safe_extract.
  rewrite !safe_get_dict by reflexivity; cbn [bind]; intro H.
  ok_chain H.
  injection H as <-; eexists; split; reflexivity.
Qed.

Lemma build_genius_artist_data_wf (a v : pyval) :
  Genius.build_genius_artist_data a = Ok v -> exists d, v = VDict d /\ dict_wf d = true.
Proof.
  unfold Genius.build_genius_artist_data; cbv zeta; unfold try_except.
  intro H.
  match type of H with
  | match ?m with Ok _ => _ | Err _ => _ end = Ok _ =>
      let E := fresh "E" in destruct m eqn:E; [|discriminate H]
  end.
  injection H as <-.
  ok_chain E.
  injection E as <-; eexists; split; reflexivity.
Qed.

(** ** Extra properties: [utils.py] and [spotify_extract.py] *)

(** [extract_value] with a string default returns either that default or
    a truthy value sitting at the end of the complete key path: it never
    returns a falsy value, nor a value from partway down the path. *)
Theorem extract_value_default_or_found (data : pyval) (key_path : list pyval) (s : string)
  (r : pyval) :
  extract_value data key_path (VStr s) = Ok r ->
  r = VStr s \/ (lookup_path data key_path = Some r /\ truthy r = true).
Proof.
  apply extract_value_shape; [intro v; apply py_eq_str|apply py_eq_str_refl].
Qed.

Lemma extract_value_default_or_found_witness :
  extract_value (mk_dict [(VStr "stats", mk_dict [(VStr "pageviews", VInt 7)])])
    [VStr "stats"; VStr "pageviews"] (VStr "UNKNOWN") = Ok (VInt 7)
  /\ (VInt 7 = VStr "UNKNOWN"
      \/ (lookup_path (mk_dict [(VStr "stats", mk_dict [(VStr "pageviews", VInt 7)])])
            [VStr "stats"; VStr "pageviews"] = Some (VInt 7) /\ truthy (VInt 7) = true)).
Proof.
  split; [reflexivity|].
  apply (extract_value_default_or_found
           (mk_dict [(VStr "stats", mk_dict [(VStr "pageviews", VInt 7)])])
           [VStr "stats"; VStr "pageviews"] "UNKNOWN" (VInt 7)).
  reflexivity.
Defined.

(** [spotify_artist_search] returns the first element of the response's
    [artists.items] list when that list is non-empty, and raises
    [ValueError("No artist found with the name '...'")] when the path is
    missing (also through a non-mapping value) or leads to a falsy value
    such as an empty list. *)
Theorem spotify_artist_search_first_or_value_error (sp : Spotify.spotify_client)
  (artist_name : string) (response : pyval) :
  Spotify.search sp artist_name = Ok response ->
  (forall it its, lookup_path response [VStr "artists"; VStr "items"] = Some (VList (it :: its)) ->
     Spotify.spotify_artist_search sp artist_name = Ok it)
  /\ ((lookup_path response [VStr "artists"; VStr "items"] = None
       \/ exists v, lookup_path response [VStr "artists"; VStr "items"] = Some v
                    /\ truthy v = false) ->
      Spotify.spotify_artist_search sp artist_name
      = Err (Exn ValueError ("No artist found with the name '" ++ artist_name ++ "'"))).
Proof.
  intro Hs; unfold Spotify.spotify_artist_search; rewrite Hs; cbn [bind]; unfold safe_extract.
  split.
  - intros it its Hp.
    rewrite (extract_value_found_gen _ _ _ VNone py_eq_none eq_refl Hp eq_refl).
    reflexivity.
  - intro Hcase.
    destruct (extract_value_total response [VStr "artists"; VStr "items"] VNone eq_refl) as [r Hr].
    rewrite Hr.
    destruct (extract_value_shape _ _ _ _ py_eq_none eq_refl Hr) as [->|[Hl Ht]];
      [reflexivity|].
    exfalso; destruct Hcase as [Hn|[v [Hv Hf]]]; [congruence|].
    rewrite Hv in Hl; injection Hl as <-; congruence.
Qed.

Lemma spotify_artist_search_first_or_value_error_witness :
  Spotify.spotify_artist_search
    (spotify_client_with_search
       (mk_dict [(VStr "artists", mk_dict [(VStr "items", VList [mk_dict [(VStr "id", VStr "a1")]])])]))
    "Test"
  = Ok (mk_dict [(VStr "id", VStr "a1")]).
Proof.
  apply (proj1 (spotify_artist_search_first_or_value_error
                  (spotify_client_with_search
                     (mk_dict [(VStr "artists",
                                mk_dict [(VStr "items", VList [mk_dict [(VStr "id", VStr "a1")]])])]))
                  "Test"
                  (mk_dict [(VStr "artists",
                             mk_dict [(VStr "items", VList [mk_dict [(VStr "id", VStr "a1")]])])])
                  eq_refl)
           (mk_dict [(VStr "id", VStr "a1")]) []).
  reflexivity.
Defined.

(** The two direct-indexing steps of [build_spotify_artist_data] raise:
    with no [images] field, [safe_get(r, 'images')[0]] is ['U'] and its
    [.get] raises [AttributeError]; with an empty [images] list it raises
    [IndexError]; and when the related-artists response has no
    ['artists'] entry, the loop walks the characters of ['UNKNOWN'] and
    raises [AttributeError]. *)
Theorem build_spotify_artist_data_indexing_errors (sp : Spotify.spotify_client) (d : dict) :
  (dict_lookup d (VStr "images") = None ->
   Spotify.build_spotify_artist_data sp (VDict d)
   = Err (Exn AttributeError "'str' object has no attribute 'get'"))
  /\ (dict_lookup d (VStr "images") = Some (VList []) ->
      Spotify.build_spotify_artist_data sp (VDict d)
      = Err (Exn IndexError "list index out of range"))
  /\ (forall img imgs rel,
        dict_lookup d (VStr "images") = Some (VList (VDict img :: imgs)) ->
        Spotify.artist_related_artists sp (dict_get d (VStr "id") UNKNOWN_VALUE) = Ok (VDict rel) ->
        dict_lookup rel (VStr "artists") = None ->
        Spotify.build_spotify_artist_data sp (VDict d)
        = Err (Exn AttributeError "'str' object has no attribute 'get'")).
Proof.
  destruct (extract_value_total (VDict d) [VStr "followers"; VStr "total"] UNKNOWN_VALUE eq_refl)
    as [nf Hnf].
  unfold Spotify.build_spotify_artist_data; cbv zeta; unfold safe_extract.
  rewrite !safe_get_dict by reflexivity; cbn [bind].
  split; [|split].
  - intro Him.
    assert (Hi : dict_get d (VStr "images") UNKNOWN_VALUE = UNKNOWN_VALUE)
      by (unfold dict_get; rewrite Him; reflexivity).
    rewrite Hi; reflexivity.
  - intro Him.
    assert (Hi : dict_get d (VStr "images") UNKNOWN_VALUE = VList [])
      by (unfold dict_get; rewrite Him; reflexivity).
    rewrite Hi; reflexivity.
  - intros img imgs rel Him Hr Ha.
    assert (Hi : dict_get d (VStr "images") UNKNOWN_VALUE = VList (VDict img :: imgs))
      by (unfold dict_get; rewrite Him; reflexivity).
    assert (H0 : subscript (VList (VDict img :: imgs)) (VInt 0) = Ok (VDict img))
      by reflexivity.
    rewrite Hi, H0; cbn [bind].
    rewrite safe_get_dict by reflexivity; cbn [bind]; rewrite Hnf; cbn [bind].
    rewrite Hr; cbn [bind].
    rewrite safe_get_dict by reflexivity; cbn [bind].
    assert (Ha' : dict_get rel (VStr "artists") UNKNOWN_VALUE = UNKNOWN_VALUE)
      by (unfold dict_get; rewrite Ha; reflexivity).
    rewrite Ha'; reflexivity.
Qed.

Lemma build_spotify_artist_data_indexing_errors_witness :
  Spotify.build_spotify_artist_data sample_spotify_client (mk_dict [(VStr "id", VStr "a1")])
  = Err (Exn AttributeError "'str' object has no attribute 'get'").
Proof.
  apply (proj1 (build_spotify_artist_data_indexing_errors sample_spotify_client
                  [(VStr "id", VStr "a1")])).
  reflexivity.
Defined.

(** The page loop of [get_album_tracks]: a falsy first page ([None] or
    [{}]) gives no tracks; a page lacking ['items'], or holding items but
    lacking ['next'], raises [KeyError]; a first page whose ['next'] is
    falsy gives exactly its items, and no further page is requested. *)
Theorem get_album_tracks_page_edges (sp : Spotify.spotify_client) (album_id page : pyval)
  (rest : list pyval) :
  Spotify.album_tracks sp album_id = Ok (page, rest) ->
  (truthy page = false -> Spotify.get_album_tracks sp album_id = Ok [])
  /\ (forall d, page = VDict d -> d <> [] -> dict_lookup d (VStr "items") = None ->
      Spotify.get_album_tracks sp album_id = Err (Exn KeyError "key not found"))
  /\ (forall d l, page = VDict d -> dict_lookup d (VStr "items") = Some (VList l) ->
      dict_lookup d (VStr "next") = None ->
      Spotify.get_album_tracks sp album_id = Err (Exn KeyError "key not found"))
  /\ (forall d l nxt, page = VDict d -> dict_lookup d (VStr "items") = Some (VList l) ->
      dict_lookup d (VStr "next") = Some nxt -> truthy nxt = false ->
      Spotify.get_album_tracks sp album_id = Ok l).
Proof.
  intro Ha; unfold Spotify.get_album_tracks; rewrite Ha; cbn [bind fst snd].
  split; [|split; [|split]].
  - intro Hf; destruct rest; simpl; rewrite Hf; reflexivity.
  - intros d -> Hne Hi; destruct rest; simpl; rewrite Hi;
      (destruct d; [contradiction|reflexivity]).
  - intros d l -> Hi Hn; destruct rest; simpl; rewrite Hi, Hn;
      (destruct d; [simpl in Hi; discriminate|reflexivity]).
  - intros d l nxt -> Hi Hn Hf; destruct rest; simpl; rewrite Hi, Hn; cbn [bind]; rewrite Hf;
      (destruct d; [simpl in Hi; discriminate|reflexivity]).
Qed.

Lemma get_album_tracks_page_edges_witness :
  Spotify.get_album_tracks
    {| Spotify.search := Spotify.search sample_spotify_client;
       Spotify.artist_related_artists := Spotify.artist_related_artists sample_spotify_client;
       Spotify.artist_albums := Spotify.artist_albums sample_spotify_client;
       Spotify.album_tracks := fun _ => Ok (sample_page 3 [1; 5] false, []);
       Spotify.audio_features := Spotify.audio_features sample_spotify_client |}
    (VStr "album") = Ok [sample_item 1 3; sample_item 5 3].
Proof.
  destruct (get_album_tracks_page_edges
              {| Spotify.search := Spotify.search sample_spotify_client;
                 Spotify.artist_related_artists := Spotify.artist_related_artists sample_spotify_client;
                 Spotify.artist_albums := Spotify.artist_albums sample_spotify_client;
                 Spotify.album_tracks := fun _ => Ok (sample_page 3 [1; 5] false, []);
                 Spotify.audio_features := Spotify.audio_features sample_spotify_client |}
              (VStr "album") _ _ eq_refl) as (_ & _ & _ & H4).
  apply (H4 _ _ VNone eq_refl); reflexivity.
Defined.

(** The dict comprehension [{album['id']: album for album in albums}]
    stops at the first album whose [album['id']] raises, with that error. *)
Lemma dedup_by_id_first_error (acc : dict) (pre : list pyval) (a : pyval) (post : list pyval)
  (e : exn) :
  Forall (fun x => exists k, subscript x (VStr "id") = Ok k /\ canon k <> None) pre ->
  subscript a (VStr "id") = Err e ->
  Spotify.dedup_by_id acc (pre ++ a :: post)%list = Err e.
Proof.
  intros Hpre Ha; revert acc; induction Hpre as [|x t [k [Hk Hc]] _ IH]; intro acc; simpl.
  - rewrite Ha; reflexivity.
  - rewrite Hk; cbn [bind]; destruct (canon k); [apply IH|contradiction].
Qed.

Lemma dedup_by_id_first_unhashable (acc : dict) (pre : list pyval) (a : pyval)
  (post : list pyval) (k : pyval) :
  Forall (fun x => exists k, subscript x (VStr "id") = Ok k /\ canon k <> None) pre ->
  subscript a (VStr "id") = Ok k -> canon k = None ->
  Spotify.dedup_by_id acc (pre ++ a :: post)%list = Err (Exn TypeError "unhashable type").
Proof.
  intros Hpre Ha Hk; revert acc; induction Hpre as [|x t [k' [Hk' Hc]] _ IH]; intro acc; simpl.
  - rewrite Ha; cbn [bind]; rewrite Hk; reflexivity.
  - rewrite Hk'; cbn [bind]; destruct (canon k'); [apply IH|contradiction].
Qed.

(** [get_artist_albums] fails on the first album (in page order) whose
    [album['id']] cannot be used as a dict key: when that subscript raises
    (a mapping without ['id'] gives [KeyError]) the call raises the same
    error, and when the identifier is unhashable it raises [TypeError];
    albums before it with hashable identifiers do not change this. *)
Theorem get_artist_albums_first_bad_id (sp : Spotify.spotify_client) (artist_id first : pyval)
  (rest pre : list pyval) (a : pyval) (post : list pyval) :
  Spotify.artist_albums sp artist_id = Ok (first, rest) ->
  Spotify.paginate first rest = Ok (pre ++ a :: post)%list ->
  Forall (fun x => exists k, subscript x (VStr "id") = Ok k /\ canon k <> None) pre ->
  (forall e, subscript a (VStr "id") = Err e -> Spotify.get_artist_albums sp artist_id = Err e)
  /\ (forall k, subscript a (VStr "id") = Ok k -> canon k = None ->
      Spotify.get_artist_albums sp artist_id = Err (Exn TypeError "unhashable type")).
Proof.
  intros Ha Hp Hpre; unfold Spotify.get_artist_albums; rewrite Ha; cbn [bind fst snd].
  rewrite Hp; cbn [bind]; split.
  - intros e He; rewrite (dedup_by_id_first_error [] pre a post e Hpre He); reflexivity.
  - intros k Hk Hc; rewrite (dedup_by_id_first_unhashable [] pre a post k Hpre Hk Hc);
      reflexivity.
Qed.

Lemma get_artist_albums_first_bad_id_witness :
  Spotify.get_artist_albums
    {| Spotify.search := Spotify.search sample_spotify_client;
       Spotify.artist_related_artists := Spotify.artist_related_artists sample_spotify_client;
       Spotify.artist_albums := fun _ =>
         Ok (mk_dict [(VStr "items", VList [sample_item 1 1; mk_dict [(VStr "page", VInt 1)]]);
                      (VStr "next", VNone)], []);
       Spotify.album_tracks := Spotify.album_tracks sample_spotify_client;
       Spotify.audio_features := Spotify.audio_features sample_spotify_client |}
    (VStr "artist") = Err (Exn KeyError "key not found").
Proof.
  destruct (get_artist_albums_first_bad_id
    {| Spotify.search := Spotify.search sample_spotify_client;
       Spotify.artist_related_artists := Spotify.artist_related_artists sample_spotify_client;
       Spotify.artist_albums := fun _ =>
         Ok (mk_dict [(VStr "items", VList [sample_item 1 1; mk_dict [(VStr "page", VInt 1)]]);
                      (VStr "next", VNone)], []);
       Spotify.album_tracks := Spotify.album_tracks sample_spotify_client;
       Spotify.audio_features := Spotify.audio_features sample_spotify_client |}
    (VStr "artist") _ _ [sample_item 1 1] (mk_dict [(VStr "page", VInt 1)]) []
    eq_refl eq_refl) as [H1 _].
  - constructor; [exists (VInt 1); split; [reflexivity|discriminate]|constructor].
  - apply H1; reflexivity.
Defined.

(** Every track [get_all_tracks_of_artist] returns comes from one of the
    artist's albums: it is a track mapping [d] that [get_album_tracks]
    listed for that album's ['id'], copied with ['spotify_album_id'] set to
    that identifier. *)
Theorem get_all_tracks_of_artist_tags_album (sp : Spotify.spotify_client)
  (artist_id : pyval) (ts : list pyval) :
  Spotify.get_all_tracks_of_artist sp artist_id = Ok ts ->
  exists albums, Spotify.get_artist_albums sp artist_id = Ok albums /\
  forall t, In t ts ->
    exists album album_id tracks d,
      In album albums /\ safe_get album (VStr "id") UNKNOWN_VALUE = Ok album_id /\
      Spotify.get_album_tracks sp album_id = Ok tracks /\ In (VDict d) tracks /\
      t = mk_dict (d ++ [(VStr "spotify_album_id", album_id)])%list /\
      (match t with VDict r => dict_lookup r (VStr "spotify_album_id") | _ => None end)
        = Some album_id.
Proof.
  unfold Spotify.get_all_tracks_of_artist; intro H.
  destruct (Spotify.get_artist_albums sp artist_id) as [albums|] eqn:Hal; cbn [bind] in H;
    [|discriminate].
  destruct (map_res _ albums) as [per|] eqn:Hm; cbn [bind] in H; [|discriminate].
  injection H as <-; exists albums; split; [reflexivity|].
  intros t Ht; apply in_concat in Ht as [l [Hl Ht]].
  destruct (map_res_In_inv _ _ _ _ Hm Hl) as [album [Hin Hf]].
  destruct (safe_get album (VStr "id") UNKNOWN_VALUE) as [album_id|] eqn:Hid;
    cbn [bind] in Hf; [|discriminate].
  destruct (Spotify.get_album_tracks sp album_id) as [tracks|] eqn:Htr;
    cbn [bind] in Hf; [|discriminate].
  destruct (map_res_In_inv _ _ _ _ Hf Ht) as [tr [Htin Hw]].
  destruct tr as [| | | | |d]; try discriminate; simpl in Hw; injection Hw as <-.
  exists album, album_id, tracks, d; repeat split; try assumption.
  unfold mk_dict; rewrite fold_left_app; simpl.
  rewrite dict_lookup_set, key_eq_str_refl; reflexivity.
Qed.

Lemma get_all_tracks_of_artist_tags_album_witness :
  exists albums, Spotify.get_artist_albums sample_spotify_client (VStr "artist") = Ok albums
                 /\ albums <> [].
Proof.
  edestruct (get_all_tracks_of_artist_tags_album sample_spotify_client (VStr "artist"))
    as [albums [Ha _]]; [reflexivity|].
  exists albums; split; [exact Ha|].
  vm_compute in Ha; injection Ha as <-; discriminate.
Defined.

(** [build_spotify_track] on a mapping whose ['id'] is not the sentinel
    calls the audio-features endpoint and takes element [0] of its answer:
    an error of that call is raised unchanged, and an empty answer raises
    [IndexError].  A track whose ['id'] is the string ['UNKNOWN'] itself is
    treated as having no identifier: the endpoint is not called and the
    features are [{}].  A track that is not a mapping raises
    [AttributeError] on its first [.get]. *)
Theorem build_spotify_track_audio_features_edges (sp : Spotify.spotify_client)
  (artist_id : pyval) (d : dict) (t : pyval) :
  (py_eq (dict_get d (VStr "id") UNKNOWN_VALUE) UNKNOWN_VALUE = false ->
   (forall e, Spotify.audio_features sp (dict_get d (VStr "id") UNKNOWN_VALUE) = Err e ->
              Spotify.build_spotify_track sp artist_id (VDict d) = Err e)
   /\ (Spotify.audio_features sp (dict_get d (VStr "id") UNKNOWN_VALUE) = Ok (VList []) ->
       Spotify.build_spotify_track sp artist_id (VDict d)
       = Err (Exn IndexError "list index out of range")))
  /\ (dict_lookup d (VStr "id") = Some (VStr "UNKNOWN") ->
      exists r, Spotify.build_spotify_track sp artist_id (VDict d) = Ok (VDict r)
                /\ dict_lookup r (VStr "track_audio_features_spotify") = Some (VDict []))
  /\ ((forall dt, t <> VDict dt) ->
      Spotify.build_spotify_track sp artist_id t
      = Err (Exn AttributeError ("'" ++ type_name t ++ "' object has no attribute 'get'"))).
Proof.
  split; [|split].
  - intro Hid; unfold Spotify.build_spotify_track.
    rewrite !safe_get_dict by reflexivity; cbn [bind]; rewrite Hid; cbn [negb].
    split.
    + intros e He; rewrite He; reflexivity.
    + intro He; rewrite He; reflexivity.
  - intro Hu; unfold Spotify.build_spotify_track.
    rewrite !safe_get_dict by reflexivity; cbn [bind].
    assert (Hg : dict_get d (VStr "id") UNKNOWN_VALUE = UNKNOWN_VALUE)
      by (unfold dict_get; rewrite Hu; reflexivity).
    rewrite Hg; replace (py_eq UNKNOWN_VALUE UNKNOWN_VALUE) with true by reflexivity;
      cbn [negb bind].
    eexists; split; reflexivity.
  - intro Hnd; destruct t as [| | | | |dt]; try reflexivity.
    exfalso; exact (Hnd dt eq_refl).
Qed.

Lemma build_spotify_track_audio_features_edges_witness :
  Spotify.build_spotify_track
    {| Spotify.search := Spotify.search sample_spotify_client;
       Spotify.artist_related_artists := Spotify.artist_related_artists sample_spotify_client;
       Spotify.artist_albums := Spotify.artist_albums sample_spotify_client;
       Spotify.album_tracks := Spotify.album_tracks sample_spotify_client;
       Spotify.audio_features := fun _ => Ok (VList []) |}
    (VStr "artist") (VDict [(VStr "id", VStr "t1")])
  = Err (Exn IndexError "list index out of range").
Proof.
  destruct (build_spotify_track_audio_features_edges
    {| Spotify.search := Spotify.search sample_spotify_client;
       Spotify.artist_related_artists := Spotify.artist_related_artists sample_spotify_client;
       Spotify.artist_albums := Spotify.artist_albums sample_spotify_client;
       Spotify.album_tracks := Spotify.album_tracks sample_spotify_client;
       Spotify.audio_features := fun _ => Ok (VList []) |}
    (VStr "artist") [(VStr "id", VStr "t1")] VNone) as [H1 _].
  apply (proj2 (H1 eq_refl)); reflexivity.
Defined.

(** [build_spotify_artist_tracks] returns one record per track that
    [get_all_tracks_of_artist] returns, and none of the records keeps the
    nested ['track_audio_features_spotify'] key. *)
Theorem build_spotify_artist_tracks_flat (sp : Spotify.spotify_client) (artist_id : pyval)
  (rs : list pyval) :
  Spotify.build_spotify_artist_tracks sp artist_id = Ok rs ->
  exists ts, Spotify.get_all_tracks_of_artist sp artist_id = Ok ts
             /\ length rs = length ts
             /\ forall r, In r rs ->
                  exists d, r = VDict d /\ dict_lookup d (VStr "track_audio_features_spotify") = None.
Proof.
  unfold Spotify.build_spotify_artist_tracks; intro H.
  destruct (Spotify.get_all_tracks_of_artist sp artist_id) as [ts|] eqn:Ht; cbn [bind] in H;
    [|discriminate].
  destruct (map_res _ ts) as [bs|] eqn:Hb; cbn [bind] in H; [|discriminate].
  exists ts; split; [reflexivity|split].
  - rewrite (map_res_length _ _ _ H); exact (map_res_length _ _ _ Hb).
  - intros r Hr; destruct (map_res_In_inv _ _ _ _ H Hr) as [x [_ Hx]].
    exact (flat_nested_dictionary_drops_key x r _ Hx).
Qed.

Lemma build_spotify_artist_tracks_flat_witness :
  exists ts, Spotify.get_all_tracks_of_artist sample_spotify_client (VStr "artist") = Ok ts
             /\ length ts = 30%nat.
Proof.
  edestruct (build_spotify_artist_tracks_flat sample_spotify_client (VStr "artist"))
    as [ts [Ht _]]; [reflexivity|].
  exists ts; split; [exact Ht|].
  vm_compute in Ht; injection Ht as <-; reflexivity.
Defined.

(** [fetch_spotify_artist_data] fetches the tracks of the artist the
    search found: once the search returns a mapping [ad] and the artist
    record builds, the result is the track builder's answer for
    [ad.get('id', 'UNKNOWN')], packed with the artist record under
    ['artist_data'] and ['artist_tracks']. *)
Theorem fetch_spotify_artist_data_uses_search_id (sp : Spotify.spotify_client)
  (name : string) (ad : dict) (a : pyval) :
  Spotify.spotify_artist_search sp name = Ok (VDict ad) ->
  Spotify.build_spotify_artist_data sp (VDict ad) = Ok a ->
  Spotify.fetch_spotify_artist_data sp name
  = (ts <- Spotify.build_spotify_artist_tracks sp (dict_get ad (VStr "id") UNKNOWN_VALUE) ;;
     Ok (mk_dict [(VStr "artist_data", a); (VStr "artist_tracks", VList ts)])).
Proof.
  intros Hs Hb; unfold Spotify.fetch_spotify_artist_data; rewrite Hs; cbn [bind]; rewrite Hb;
    cbn [bind].
  destruct (build_spotify_artist_data_id sp ad a Hb) as [r [-> Hr]].
  assert (Hi : subscript (VDict r) (VStr "spotify_artist_id")
               = Ok (dict_get ad (VStr "id") UNKNOWN_VALUE))
    by (unfold subscript; cbn [canon]; rewrite Hr; reflexivity).
  rewrite Hi; reflexivity.
Qed.

Lemma fetch_spotify_artist_data_uses_search_id_witness :
  exists ad a,
    Spotify.spotify_artist_search
      (spotify_client_with_search
         (mk_dict [(VStr "artists",
                    mk_dict [(VStr "items",
                              VList [mk_dict [(VStr "id", VStr "a1");
                                              (VStr "images",
                                               VList [mk_dict [(VStr "url", VStr "u")]])]])])]))
      "X" = Ok (VDict ad)
    /\ Spotify.fetch_spotify_artist_data
         (spotify_client_with_search
            (mk_dict [(VStr "artists",
                       mk_dict [(VStr "items",
                                 VList [mk_dict [(VStr "id", VStr "a1");
                                                 (VStr "images",
                                                  VList [mk_dict [(VStr "url", VStr "u")]])]])])]))
         "X"
       = (ts <- Spotify.build_spotify_artist_tracks
                  (spotify_client_with_search
                     (mk_dict [(VStr "artists",
                                mk_dict [(VStr "items",
                                          VList [mk_dict [(VStr "id", VStr "a1");
                                                          (VStr "images",
                                                           VList [mk_dict [(VStr "url", VStr "u")]])]])])]))
                  (dict_get ad (VStr "id") UNKNOWN_VALUE) ;;
          Ok (mk_dict [(VStr "artist_data", a); (VStr "artist_tracks", VList ts)])).
Proof.
  do 2 eexists; split; [reflexivity|].
  apply fetch_spotify_artist_data_uses_search_id; reflexivity.
Defined.

(** ** Extra properties: [genius_extract.py] *)

(** [genius_artist_search] succeeds exactly when the client returns an
    artist whose ['name'] ([.get] with the sentinel as default) equals the
    query, and then returns that artist as it is; every error it raises is
    a [GeniusAPIError] whose message starts with
    ["Error fetching artist '<name>' from Genius API: "]. *)
Theorem genius_artist_search_ok_iff (gc : Genius.genius_client) (name : string) (n : Z)
  (r : pyval) (e : exn) :
  (Genius.genius_artist_search gc name n = Ok r
   <-> Genius.search_artist gc name n = Ok (Some r)
       /\ safe_get r (VStr "name") UNKNOWN_VALUE = Ok (VStr name))
  /\ (Genius.genius_artist_search gc name n = Err e ->
      exn_cls e = GeniusAPIError
      /\ exists m, exn_msg e = ("Error fetching artist '" ++ name ++ "' from Genius API: " ++ m)).
Proof.
  split.
  - unfold Genius.genius_artist_search, try_except; split.
    + destruct (Genius.search_artist gc name n) as [[d|]|e0]; cbn [bind]; try discriminate.
      destruct (safe_get d (VStr "name") UNKNOWN_VALUE) as [nm|e0] eqn:Hn; cbn [bind];
        [|discriminate].
      destruct (py_eq nm (VStr name)) eqn:He; cbn [negb]; [|discriminate].
      intro H; injection H as <-; apply py_eq_str in He; subst nm; split; [reflexivity|exact Hn].
    + intros [Hs Hn]; rewrite Hs; cbn [bind]; rewrite Hn; cbn [bind].
      rewrite py_eq_str_refl; reflexivity.
  - unfold Genius.genius_artist_search, try_except.
    match goal with |- match ?m with Ok _ => _ | Err _ => _ end = _ -> _ =>
      destruct m as [x|e0] end; intro H; [discriminate|].
    injection H as <-; split; [reflexivity|eexists; reflexivity].
Qed.

Lemma genius_artist_search_ok_iff_witness :
  Genius.search_artist (sample_genius_client "Test" []) "Test" 10
  = Ok (Some (mk_dict [(VStr "id", VInt 1); (VStr "name", VStr "Test"); (VStr "songs", VList [])]))
  /\ safe_get (mk_dict [(VStr "id", VInt 1); (VStr "name", VStr "Test"); (VStr "songs", VList [])])
       (VStr "name") UNKNOWN_VALUE = Ok (VStr "Test").
Proof.
  apply (proj1 (genius_artist_search_ok_iff (sample_genius_client "Test" []) "Test" 10
                  (mk_dict [(VStr "id", VInt 1); (VStr "name", VStr "Test");
                            (VStr "songs", VList [])])
                  (Exn GeniusAPIError ""))).
  reflexivity.
Defined.

(** A Genius track mapping whose ['primary_artists'] is a non-empty string
    makes the builder raise: the loop over the string's characters calls
    [.get] on a [str], and the [except] re-raises that as a
    [TrackDataError]. *)
Theorem genius_track_primary_artists_string (d : dict) (c : ascii) (s : string) :
  dict_lookup d (VStr "primary_artists") = Some (VStr (String c s)) ->
  Genius.build_genius_artist_track (VDict d)
  = Err (Exn TrackDataError
           "Error occurred while building track data: 'str' object has no attribute 'get'").
Proof.
  intro Hp.
  assert (Hne' : py_eq (VDict d) (VDict []) = false)
    by (destruct d; [discriminate|reflexivity]).
  assert (Hl : dict_get d (VStr "primary_artists") (VList []) = VStr (String c s))
    by (unfold dict_get; rewrite Hp; reflexivity).
  destruct (extract_value_total (VDict d) [VStr "primary_artist"; VStr "name"] UNKNOWN_VALUE eq_refl)
    as [pa Hpa].
  destruct (extract_value_total (VDict d) [VStr "stats"; VStr "pageviews"] UNKNOWN_VALUE eq_refl)
    as [pv Hpv].
  destruct (extract_value_total (VDict d) [VStr "description"; VStr "plain"] UNKNOWN_VALUE eq_refl)
    as [desc Hdesc].
  unfold Genius.build_genius_artist_track; cbv zeta; rewrite Hne'.
  unfold safe_extract; rewrite Hpa, Hpv, Hdesc.
  rewrite !safe_get_dict by reflexivity; cbn [bind].
  rewrite Hl; reflexivity.
Qed.

Lemma genius_track_primary_artists_string_witness :
  Genius.build_genius_artist_track
    (VDict [(VStr "id", VInt 7); (VStr "primary_artists", VStr "Test")])
  = Err (Exn TrackDataError
           "Error occurred while building track data: 'str' object has no attribute 'get'").
Proof. apply (genius_track_primary_artists_string _ "T" "est"); reflexivity. Defined.

(** The two Genius builders report every failure as a [TrackDataError]
    with their own message prefix; when a song of the artist's ['songs']
    list fails to build, the artist builder raises a [TrackDataError]
    whose message is its prefix followed by the track builder's message. *)
Theorem genius_builders_error_form (t a : pyval) (e : exn) :
  (Genius.build_genius_artist_track t = Err e ->
   exn_cls e = TrackDataError
   /\ exists m, exn_msg e = ("Error occurred while building track data: " ++ m)%string)
  /\ (Genius.build_genius_artist_data a = Err e ->
      exn_cls e = TrackDataError
      /\ exists m, exn_msg e = ("Error occurred while building artist data: " ++ m)%string)
  /\ (forall d l, dict_lookup d (VStr "songs") = Some (VList l) ->
      map_res Genius.build_genius_artist_track l = Err e ->
      Genius.build_genius_artist_data (VDict d)
      = Err (Exn TrackDataError ("Error occurred while building artist data: " ++ exn_msg e))).
Proof.
  split; [|split].
  - unfold Genius.build_genius_artist_track; cbv zeta.
    destruct (py_eq t (VDict [])); [discriminate|].
    apply try_except_raise_msg.
  - apply try_except_raise_msg.
  - intros d l Hs Hm.
    assert (Hl : dict_get d (VStr "songs") (VDict []) = VList l)
      by (unfold dict_get; rewrite Hs; reflexivity).
    destruct (extract_value_total (VDict d) [VStr "description"; VStr "plain"] UNKNOWN_VALUE
                eq_refl) as [desc Hdesc].
    unfold Genius.build_genius_artist_data; cbv zeta; unfold safe_extract; rewrite Hdesc.
    rewrite !safe_get_dict by reflexivity; cbn [bind].
    rewrite Hl; cbn [bind py_iter]; rewrite Hm; reflexivity.
Qed.

Lemma genius_builders_error_form_witness :
  Genius.build_genius_artist_data
    (VDict [(VStr "name", VStr "Test");
            (VStr "songs", VList [VDict [(VStr "primary_artists", VStr "Test")]])])
  = Err (Exn TrackDataError
           ("Error occurred while building artist data: "
            ++ "Error occurred while building track data: 'str' object has no attribute 'get'")).
Proof.
  destruct (genius_builders_error_form VNone VNone
              (Exn TrackDataError
                 "Error occurred while building track data: 'str' object has no attribute 'get'"))
    as [_ [_ H3]].
  apply (H3 _ [VDict [(VStr "primary_artists", VStr "Test")]]); reflexivity.
Defined.

(** When the search and the artist builder succeed,
    [fetch_genius_artist_data] returns the built record without its
    ['genius_tracks'] key under ['artist_data'] (every other key keeps its
    value) and the record's ['genius_tracks'] under ['artist_tracks']. *)
Theorem fetch_genius_artist_data_splits_tracks (gc : Genius.genius_client) (name : string)
  (n : Z) (r v : pyval) :
  Genius.genius_artist_search gc name n = Ok r ->
  Genius.build_genius_artist_data r = Ok v ->
  exists d ad, v = VDict d
    /\ Genius.fetch_genius_artist_data gc name n
       = Ok (mk_dict [(VStr "artist_data", VDict ad);
                      (VStr "artist_tracks", dict_get d (VStr "genius_tracks") (VDict []))])
    /\ forall j, dict_lookup ad j
                 = if key_eq j (VStr "genius_tracks") then None else dict_lookup d j.
Proof.
  intros Hs Hb; destruct (build_genius_artist_data_wf r v Hb) as [d [-> Hwf]].
  exists d,
    (fold_left (fun acc kv => dict_set acc (fst kv) (snd kv))
       (filter (fun kv => negb (py_eq (fst kv) (VStr "genius_tracks"))) d) []).
  split; [reflexivity|split].
  - unfold Genius.fetch_genius_artist_data; rewrite Hs; cbn [bind]; rewrite Hb; cbn [bind].
    rewrite safe_get_dict by reflexivity; reflexivity.
  - intro j.
    pose proof (dict_lookup_mk_dict _ j (dict_wf_filter
                  (fun kv => negb (py_eq (fst kv) (VStr "genius_tracks"))) d Hwf)) as E.
    unfold mk_dict in E; rewrite E, dict_lookup_filter_key; reflexivity.
Qed.

Lemma fetch_genius_artist_data_splits_tracks_witness :
  exists d ad,
    Genius.fetch_genius_artist_data (sample_genius_client "Test" [sample_song]) "Test" 10
    = Ok (mk_dict [(VStr "artist_data", VDict ad);
                   (VStr "artist_tracks", dict_get d (VStr "genius_tracks") (VDict []))]).
Proof.
  edestruct (fetch_genius_artist_data_splits_tracks (sample_genius_client "Test" [sample_song])
               "Test" 10) as [d [ad [_ [Hf _]]]]; [reflexivity|reflexivity|].
  exists d, ad; exact Hf.
Defined.
